(** * ResumeAnalyser front end: the reset-password page and the resume upload dialog

    A shallow embedding of the two client components of
    [src/app/(auth)/reset-password/[token]/page.tsx]:

    - [ResetPasswordPage]: the token-gated password reset form;
    - [ResumeJDUpload]: the dialog that posts a resume and a job description.

    JavaScript strings are sequences of UTF-16 code units, React state is a
    record, a [setX] call is a record update, and an [async] handler is cut at
    its [await] into the part that runs on the click and the part that runs
    when the request settles. *)

From Stdlib Require Import List NArith Bool String Ascii Lia.
From Stdlib Require Import Permutation.
Import ListNotations.

(** ** JavaScript strings *)

(** A string is the list of its UTF-16 code units; [length] counts them. *)
Definition jsstring : Type := list N.

(** An ASCII literal of the source, one code unit per character. *)
Definition js (s : string) : jsstring :=
  List.map N_of_ascii (list_ascii_of_string s).

Definition jslength (s : jsstring) : N := N.of_nat (List.length s).

(** [ToBoolean] on a string: only the empty string is falsy. *)
Definition truthy (s : jsstring) : bool :=
  match s with
  | [] => false
  | _ :: _ => true
  end.

(** [ToBoolean] on a value that is a string or [undefined]/[null]. *)
Definition truthyOpt (v : option jsstring) : bool :=
  match v with
  | Some s => truthy s
  | None => false
  end.

(** [a || b] on such values. *)
Definition jsor (a b : option jsstring) : option jsstring :=
  if truthyOpt a then a else b.

(** [a === b] on strings. *)
Fixpoint streq (a b : jsstring) : bool :=
  match a, b with
  | [], [] => true
  | x :: a', y :: b' => (x =? y)%N && streq a' b'
  | _, _ => false
  end.

(** A template literal prints a missing value as the word undefined. *)
Definition interpolate (v : option jsstring) : jsstring :=
  match v with
  | Some s => s
  | None => js "undefined"
  end.

Definition inRange (lo hi c : N) : bool := ((lo <=? c) && (c <=? hi))%N.

(** The classes [[a-z]], [[A-Z]] and [\d] (no unicode or ignore-case flag). *)
Definition isLowerAZ (c : N) : bool := inRange 97 122 c.
Definition isUpperAZ (c : N) : bool := inRange 65 90 c.
Definition isDigit (c : N) : bool := inRange 48 57 c.

(** ECMAScript LineTerminator: what [.] refuses to match. *)
Definition isLineTerminator (c : N) : bool :=
  ((c =? 10) || (c =? 13) || (c =? 8232) || (c =? 8233))%N.

(** ECMAScript WhiteSpace and LineTerminator: what [trim] strips. *)
Definition isWhiteSpace (c : N) : bool :=
  ((c =? 9) || (c =? 11) || (c =? 12) || (c =? 32) || (c =? 160)
   || (c =? 5760) || inRange 8192 8202 c || (c =? 8239) || (c =? 8287)
   || (c =? 12288) || (c =? 65279))%N
  || isLineTerminator c.

(** The pattern [.*C] matched at the head of [s]: a run of code units that
    are no line terminators, then one of class [C]. *)
Fixpoint dotStarThen (cls : N -> bool) (s : jsstring) : bool :=
  match s with
  | [] => false
  | c :: rest => cls c || (negb (isLineTerminator c) && dotStarThen cls rest)
  end.

(** [/(?=.*C)/.test(s)]: the pattern is not anchored, so the lookahead is
    tried at every start index. *)
Fixpoint testLookahead (cls : N -> bool) (s : jsstring) : bool :=
  dotStarThen cls s
  || match s with
     | [] => false
     | _ :: rest => testLookahead cls rest
     end.

Fixpoint trimStart (s : jsstring) : jsstring :=
  match s with
  | [] => []
  | c :: rest => if isWhiteSpace c then trimStart rest else s
  end.

(** [String.prototype.trim]. *)
Definition trim (s : jsstring) : jsstring :=
  List.rev (trimStart (List.rev (trimStart s))).

Fixpoint startsWith (pat s : jsstring) : bool :=
  match pat, s with
  | [], _ => true
  | _ :: _, [] => false
  | x :: pat', y :: s' => (x =? y)%N && startsWith pat' s'
  end.

(** [String.prototype.includes]. *)
Fixpoint includes (pat s : jsstring) : bool :=
  startsWith pat s
  || match s with
     | [] => false
     | _ :: rest => includes pat rest
     end.

(** ** The reset-password page *)

Module ResetPasswordPage.

Record Passwords : Type := mkPasswords {
  password : jsstring;
  confirmPassword : jsstring
}.

(** The [useState] cells of the component. [error] is declared a string,
    but [setError] is also called with a value read from a response body,
    which may be [undefined]: [None]. [tokenValid] is [boolean | null]. *)
Record State : Type := mkState {
  passwords : Passwords;
  error : option jsstring;
  success : jsstring;
  isLoading : bool;
  tokenValid : option bool;
  showPassword : bool;
  showConfirmPassword : bool
}.

Definition setPasswords (v : Passwords) (s : State) : State :=
  mkState v (error s) (success s) (isLoading s) (tokenValid s)
          (showPassword s) (showConfirmPassword s).
Definition setError (v : option jsstring) (s : State) : State :=
  mkState (passwords s) v (success s) (isLoading s) (tokenValid s)
          (showPassword s) (showConfirmPassword s).
Definition setSuccess (v : jsstring) (s : State) : State :=
  mkState (passwords s) (error s) v (isLoading s) (tokenValid s)
          (showPassword s) (showConfirmPassword s).
Definition setIsLoading (v : bool) (s : State) : State :=
  mkState (passwords s) (error s) (success s) v (tokenValid s)
          (showPassword s) (showConfirmPassword s).
Definition setTokenValid (v : option bool) (s : State) : State :=
  mkState (passwords s) (error s) (success s) (isLoading s) v
          (showPassword s) (showConfirmPassword s).
Definition setShowPassword (v : bool) (s : State) : State :=
  mkState (passwords s) (error s) (success s) (isLoading s) (tokenValid s)
          v (showConfirmPassword s).
Definition setShowConfirmPassword (v : bool) (s : State) : State :=
  mkState (passwords s) (error s) (success s) (isLoading s) (tokenValid s)
          (showPassword s) v.

(** The initial values given to [useState]. *)
Definition initialState : State :=
  mkState (mkPasswords [] []) (Some []) [] false None false false.

(** What the component asks of its collaborators. *)
Record Request : Type := mkRequest {
  url : jsstring;
  bodyPassword : jsstring
}.

Inductive Effect : Type :=
| AxiosPost (r : Request)
| RouterPush (path : jsstring)
| SetTimeout (callback : Effect) (ms : N).

(** The fields the handler reads from a response body. [dataSuccess] is
    the truthiness of [data.success]. *)
Record ResponseData : Type := mkData {
  dataSuccess : bool;
  dataMessage : option jsstring;
  dataError : option jsstring
}.

(** How the awaited [axios.post] settles. A body that is [null] or
    [undefined] is [None]. *)
Inductive Outcome : Type :=
| Fulfilled (data : option ResponseData)
| RejectedWithResponse (status : N) (data : option ResponseData)
| RejectedWithoutResponse.

Definition msgInvalidLink : jsstring :=
  js "Invalid reset link. Please request a new password reset.".
Definition msgTooShort : jsstring :=
  js "Password must be at least 8 characters long".
Definition msgNoLowercase : jsstring :=
  js "Password must contain at least one lowercase letter".
Definition msgNoUppercase : jsstring :=
  js "Password must contain at least one uppercase letter".
Definition msgNoNumber : jsstring :=
  js "Password must contain at least one number".
Definition msgFillAll : jsstring := js "Please fill in all fields".
Definition msgMismatch : jsstring := js "Passwords do not match".
Definition msgResetDone : jsstring :=
  js "Password has been reset successfully! Redirecting to login...".
Definition msgUnexpected : jsstring :=
  js "An unexpected error occurred. Please try again later.".
Definition msgLinkExpired : jsstring :=
  js "This password reset link is invalid or has expired.".

(** The effect run after the first render (its dependency, the route
    token, does not change during the life of the page). *)
Definition useEffect_token (token : option jsstring) (s : State) : State :=
  if negb (truthyOpt token) then
    setTokenValid (Some false) (setError (Some msgInvalidLink) s)
  else
    setTokenValid (Some true) s.

Inductive Field : Type := FieldPassword | FieldConfirmPassword.

Definition handleChange (name : Field) (value : jsstring) (s : State) : State :=
  let prev := passwords s in
  let s1 :=
    setPasswords
      match name with
      | FieldPassword => mkPasswords value (confirmPassword prev)
      | FieldConfirmPassword => mkPasswords (password prev) value
      end s in
  let s2 := if truthyOpt (error s) then setError (Some []) s1 else s1 in
  if truthy (success s) then setSuccess [] s2 else s2.

(** [null] is [None]. *)
Definition validatePassword (password : jsstring) : option jsstring :=
  if (jslength password <? 8)%N then Some msgTooShort
  else if negb (testLookahead isLowerAZ password) then Some msgNoLowercase
  else if negb (testLookahead isUpperAZ password) then Some msgNoUppercase
  else if negb (testLookahead isDigit password) then Some msgNoNumber
  else None.

Definition resetUrl (backendUrl token : option jsstring) : jsstring :=
  interpolate backendUrl ++ js "/api/auth/reset-password/" ++ interpolate token.

Section Handlers.

(** [process.env.NEXT_PUBLIC_BACKEND_URL] and the route token. *)
Variable backendUrl : option jsstring.
Variable token : option jsstring.

(** [handleResetPassword] up to its [await]: the new state and the
    request it posts, if any. *)
Definition handleResetPassword_submit (s : State) : State * option Request :=
  let pw := passwords s in
  let s := setError (Some []) s in
  let s := setSuccess [] s in
  let s := setIsLoading true s in
  if negb (truthy (password pw)) || negb (truthy (confirmPassword pw)) then
    (setIsLoading false (setError (Some msgFillAll) s), None)
  else if negb (streq (password pw) (confirmPassword pw)) then
    (setIsLoading false (setError (Some msgMismatch) s), None)
  else
    let passwordError := validatePassword (password pw) in
    if truthyOpt passwordError then
      (setIsLoading false (setError passwordError s), None)
    else
      (s, Some (mkRequest (resetUrl backendUrl token) (password pw))).

(** [handleResetPassword] from its [await] on: the [try] body after the
    response, the [catch] and the [finally]. Reading [success] off a
    [null] body throws, which lands in the [catch] as an error that is
    no axios error. *)
Definition handleResetPassword_settle (o : Outcome) (s : State)
  : State * list Effect :=
  let '(s1, effects) :=
    match o with
    | Fulfilled (Some data) =>
        if dataSuccess data then
          (setPasswords (mkPasswords [] [])
             (setSuccess
                (if truthyOpt (dataMessage data)
                 then interpolate (dataMessage data) else msgResetDone) s),
           [SetTimeout (RouterPush (js "/signin")) 3000])
        else (s, [])
    | Fulfilled None => (setError (Some msgUnexpected) s, [])
    | RejectedWithResponse status data =>
        let s' :=
          setError
            match data with
            | Some d => jsor (dataMessage d) (dataError d)
            | None => None
            end s in
        if ((status =? 400) || (status =? 404))%N
        then (setTokenValid (Some false) s', [])
        else (s', [])
    | RejectedWithoutResponse => (setError (Some msgUnexpected) s, [])
    end in
  (setIsLoading false s1, effects).

End Handlers.

(** What the component returns. *)
Record FormView : Type := mkFormView {
  inputsDisabled : bool;
  shownError : option jsstring;
  shownSuccess : option jsstring;
  submitDisabled : bool
}.

Inductive View : Type :=
| LoadingView
| InvalidResetLinkView (message : jsstring)
| ResetFormView (form : FormView).

Definition render (s : State) : View :=
  match tokenValid s with
  | None => LoadingView
  | Some false =>
      InvalidResetLinkView
        (if truthyOpt (error s) then interpolate (error s) else msgLinkExpired)
  | Some true =>
      ResetFormView
        (mkFormView
           (isLoading s)
           (if truthyOpt (error s) then error s else None)
           (if truthy (success s) then Some (success s) else None)
           (isLoading s
            || negb (truthy (password (passwords s)))
            || negb (truthy (confirmPassword (passwords s)))))
  end.

(** *** The mounted page: state, requests in flight, effects so far *)

Record Page : Type := mkPage {
  state : State;
  inFlight : list Request;
  effects : list Effect
}.

(** What can happen to a mounted page: the user types in an enabled
    input, presses the enabled submit button, toggles a visibility eye,
    or the oldest request in flight settles. *)
Inductive Event : Type :=
| Change (name : Field) (value : jsstring)
| Submit
| ToggleShowPassword
| ToggleShowConfirmPassword
| Settle (o : Outcome).

Section Lifecycle.

Variable backendUrl : option jsstring.
Variable token : option jsstring.

(** First render, then the effect. *)
Definition mount : Page :=
  mkPage (useEffect_token token initialState) [] [].

(** One event; [None] when the view does not offer it (the form is not
    rendered, the control is disabled, nothing is in flight). *)
Definition step (p : Page) (e : Event) : option Page :=
  match e, render (state p) with
  | Change name value, ResetFormView f =>
      if inputsDisabled f then None
      else Some (mkPage (handleChange name value (state p))
                        (inFlight p) (effects p))
  | Submit, ResetFormView f =>
      if submitDisabled f then None
      else
        let '(s', req) := handleResetPassword_submit backendUrl token (state p) in
        match req with
        | Some r => Some (mkPage s' (inFlight p ++ [r]) (effects p ++ [AxiosPost r]))
        | None => Some (mkPage s' (inFlight p) (effects p))
        end
  | ToggleShowPassword, ResetFormView f =>
      if inputsDisabled f then None
      else Some (mkPage (setShowPassword (negb (showPassword (state p))) (state p))
                        (inFlight p) (effects p))
  | ToggleShowConfirmPassword, ResetFormView f =>
      if inputsDisabled f then None
      else Some (mkPage (setShowConfirmPassword
                           (negb (showConfirmPassword (state p))) (state p))
                        (inFlight p) (effects p))
  | Settle o, _ =>
      match inFlight p with
      | [] => None
      | _ :: rest =>
          let '(s', effs) := handleResetPassword_settle o (state p) in
          Some (mkPage s' rest (effects p ++ effs))
      end
  | _, _ => None
  end.

(** A sequence of events; events the view does not offer are dropped. *)
Fixpoint run (p : Page) (es : list Event) : Page :=
  match es with
  | [] => p
  | e :: es' =>
      match step p e with
      | Some p' => run p' es'
      | None => run p es'
      end
  end.

End Lifecycle.

(** The outcomes the [catch] block takes for a dead token. *)
Definition isTokenRejection (o : Outcome) : bool :=
  match o with
  | RejectedWithResponse status _ => ((status =? 400) || (status =? 404))%N
  | _ => false
  end.

(** At most one request is in flight, and while one is, the loading flag
    is on. *)
Definition inFlightGuarded (p : Page) : Prop :=
  (List.length (inFlight p) <= 1)%nat
  /\ (inFlight p <> [] -> isLoading (state p) = true).

(** A success banner is only ever on screen over cleared fields. *)
Definition bannerOverClearedFields (s : State) : Prop :=
  success s <> [] -> passwords s = mkPasswords [] [].

(** *** The rule order in the words of the specification *)

Inductive Rule : Type := MinLength | HasLowercase | HasUppercase | HasDigit.

Definition satisfies (r : Rule) (p : jsstring) : bool :=
  match r with
  | MinLength => (8 <=? jslength p)%N
  | HasLowercase => existsb isLowerAZ p
  | HasUppercase => existsb isUpperAZ p
  | HasDigit => existsb isDigit p
  end.

Definition ruleOrder : list Rule :=
  [MinLength; HasLowercase; HasUppercase; HasDigit].

Definition firstViolated (p : jsstring) : option Rule :=
  List.find (fun r => negb (satisfies r p)) ruleOrder.

Definition ruleMessage (r : Rule) : jsstring :=
  match r with
  | MinLength => msgTooShort
  | HasLowercase => msgNoLowercase
  | HasUppercase => msgNoUppercase
  | HasDigit => msgNoNumber
  end.

(** While a request is out the loading flag is on, and conversely; the
    request out carries the password that is in both fields. *)
Definition pendingMatchesForm (p : Page) : Prop :=
  (isLoading (state p) = true <-> inFlight p <> [])
  /\ (forall r, In r (inFlight p) ->
      bodyPassword r = password (passwords (state p))
      /\ bodyPassword r = confirmPassword (passwords (state p))).

(** Every request posted so far went to the reset endpoint of the token
    with a password that passes [validatePassword]. *)
Definition postsAreValid (backendUrl token : option jsstring) (p : Page) : Prop :=
  forall r, In (AxiosPost r) (effects p) ->
    validatePassword (bodyPassword r) = None
    /\ url r = resetUrl backendUrl token.

End ResetPasswordPage.

(** ** The resume upload dialog *)

Module ResumeJDUpload.

(** A browser [File]: an opaque handle with a name, a byte size and a MIME
    type. *)
Record File : Type := mkFile {
  fileHandle : N;
  fileName : jsstring;
  fileSize : N;
  fileType : jsstring
}.

Record ResumeFile : Type := mkResumeFile {
  file : File;
  name : jsstring;
  size : N
}.

Record JobDetails : Type := mkJobDetails {
  title : jsstring;
  company : jsstring;
  description : jsstring
}.

(** The answer of the analysis endpoint, passed on as it is. *)
Definition AnalysisData : Type := jsstring.

(** The part of [DashboardContext] the dialog writes to. *)
Record Dashboard : Type := mkDashboard {
  openDialog : bool;
  resumeAnalysisData : option AnalysisData
}.

Record State : Type := mkState {
  resumeFile : option ResumeFile;
  jobDetails : JobDetails;
  isScanning : bool;
  dashboard : Dashboard
}.

Definition setResumeFile (v : option ResumeFile) (s : State) : State :=
  mkState v (jobDetails s) (isScanning s) (dashboard s).
Definition setJobDetails (v : JobDetails) (s : State) : State :=
  mkState (resumeFile s) v (isScanning s) (dashboard s).
Definition setIsScanning (v : bool) (s : State) : State :=
  mkState (resumeFile s) (jobDetails s) v (dashboard s).
Definition setOpenDialog (v : bool) (s : State) : State :=
  mkState (resumeFile s) (jobDetails s) (isScanning s)
          (mkDashboard v (resumeAnalysisData (dashboard s))).
Definition setResumeAnalysisData (v : option AnalysisData) (s : State) : State :=
  mkState (resumeFile s) (jobDetails s) (isScanning s)
          (mkDashboard (openDialog (dashboard s)) v).

(** The dialog as the dashboard opens it. *)
Definition initialState (d : Dashboard) : State :=
  mkState None (mkJobDetails [] [] []) false d.

Inductive FormValue : Type :=
| FormFile (f : File)
| FormText (t : jsstring).

Record Request : Type := mkRequest {
  url : jsstring;
  formData : list (jsstring * FormValue);
  withCredentials : bool;
  headers : list (jsstring * jsstring)
}.

Inductive Effect : Type :=
| AxiosPost (r : Request)
| RouterPush (path : jsstring)
| ConsoleError.

(** How the awaited [axios.post] settles. *)
Inductive Outcome : Type :=
| Fulfilled (data : AnalysisData)
| RejectedAxios
| RejectedOther.

(** The test both file handlers apply to [file.type]. *)
Definition acceptsType (type : jsstring) : bool :=
  streq type (js "application/pdf") || includes (js "document") type.

(** [files?.[0]] is [None] when the list is empty. *)
Definition handleFileUpload (first : option File) (s : State) : State :=
  match first with
  | Some f =>
      if acceptsType (fileType f)
      then setResumeFile (Some (mkResumeFile f (fileName f) (fileSize f))) s
      else s
  | None => s
  end.

Definition handleDrop (first : option File) (s : State) : State :=
  match first with
  | Some f =>
      if acceptsType (fileType f)
      then setResumeFile (Some (mkResumeFile f (fileName f) (fileSize f))) s
      else s
  | None => s
  end.

Inductive JobField : Type := FieldTitle | FieldCompany | FieldDescription.

Definition handleJobDetailsChange (field : JobField) (value : jsstring)
    (s : State) : State :=
  let prev := jobDetails s in
  setJobDetails
    match field with
    | FieldTitle => mkJobDetails value (company prev) (description prev)
    | FieldCompany => mkJobDetails (title prev) value (description prev)
    | FieldDescription => mkJobDetails (title prev) (company prev) value
    end s.

Definition analyseUrl (fastapiUrl : option jsstring) : jsstring :=
  interpolate fastapiUrl ++ js "/api/v1/resume/analyse".

Section Handlers.

(** [process.env.NEXT_PUBLIC_BACKEND_FASTAPI_URL]. *)
Variable fastapiUrl : option jsstring.

(** [handleStartScanning] up to its [await]. *)
Definition handleStartScanning_submit (s : State) : State * option Request :=
  match resumeFile s with
  | Some rf =>
      if truthy (title (jobDetails s))
         && truthy (company (jobDetails s))
         && truthy (description (jobDetails s))
      then
        (setResumeAnalysisData None (setIsScanning true s),
         Some (mkRequest (analyseUrl fastapiUrl)
                 [(js "resume_file", FormFile (file rf));
                  (js "job_description", FormText (description (jobDetails s)));
                  (js "job_title", FormText (title (jobDetails s)))]
                 true
                 [(js "Content-Type", js "multipart/form-data")]))
      else (s, None)
  | None => (s, None)
  end.

(** [handleStartScanning] from its [await] on. *)
Definition handleStartScanning_settle (o : Outcome) (s : State)
  : State * list Effect :=
  let '(s1, effects) :=
    match o with
    | Fulfilled data =>
        (setResumeAnalysisData (Some data) (setOpenDialog false s),
         [RouterPush (js "/dashboard/jd-matcher/resume-analysis")])
    | RejectedAxios => (s, [ConsoleError])
    | RejectedOther => (s, [])
    end in
  (setIsScanning false s1, effects).

End Handlers.

Definition handleCloseDialogBox (s : State) : State :=
  setOpenDialog false
    (setIsScanning false
       (setJobDetails (mkJobDetails [] [] []) (setResumeFile None s))).

Definition isFormValid (s : State) : bool :=
  match resumeFile s with
  | Some _ =>
      truthy (trim (title (jobDetails s)))
      && truthy (trim (company (jobDetails s)))
      && truthy (trim (description (jobDetails s)))
  | None => false
  end.

(** The [disabled] attribute of the Start Analysis button. *)
Definition startDisabled (s : State) : bool :=
  negb (isFormValid s) || isScanning s.

Definition submitEnabled (s : State) : bool := negb (startDisabled s).

(** *** The open dialog: state, requests in flight, effects so far *)

Record Dialog : Type := mkDialog {
  state : State;
  inFlight : list Request;
  effects : list Effect
}.

Inductive Event : Type :=
| FileUpload (first : option File)
| Drop (first : option File)
| JobDetailsChange (field : JobField) (value : jsstring)
| ClickStart
| ClickClose
| Settle (o : Outcome).

Definition isClickClose (e : Event) : bool :=
  match e with
  | ClickClose => true
  | _ => false
  end.

Section Lifecycle.

Variable fastapiUrl : option jsstring.

Definition opened (d : Dashboard) : Dialog :=
  mkDialog (initialState d) [] [].

(** One event; [None] when it is not on offer (the button is disabled,
    nothing is in flight). *)
Definition step (p : Dialog) (e : Event) : option Dialog :=
  match e with
  | FileUpload first =>
      Some (mkDialog (handleFileUpload first (state p)) (inFlight p) (effects p))
  | Drop first =>
      Some (mkDialog (handleDrop first (state p)) (inFlight p) (effects p))
  | JobDetailsChange field value =>
      Some (mkDialog (handleJobDetailsChange field value (state p))
                     (inFlight p) (effects p))
  | ClickStart =>
      if startDisabled (state p) then None
      else
        let '(s', req) := handleStartScanning_submit fastapiUrl (state p) in
        match req with
        | Some r => Some (mkDialog s' (inFlight p ++ [r]) (effects p ++ [AxiosPost r]))
        | None => Some (mkDialog s' (inFlight p) (effects p))
        end
  | ClickClose =>
      Some (mkDialog (handleCloseDialogBox (state p)) (inFlight p) (effects p))
  | Settle o =>
      match inFlight p with
      | [] => None
      | _ :: rest =>
          let '(s', effs) := handleStartScanning_settle o (state p) in
          Some (mkDialog s' rest (effects p ++ effs))
      end
  end.

Fixpoint run (p : Dialog) (es : list Event) : Dialog :=
  match es with
  | [] => p
  | e :: es' =>
      match step p e with
      | Some p' => run p' es'
      | None => run p es'
      end
  end.

End Lifecycle.

(** *** Sample values for the examples *)

Definition pdfFile : File :=
  mkFile 1 (js "cv.pdf") 150000 (js "application/pdf").
Definition docxFile : File :=
  mkFile 2 (js "cv.docx") 90000
    (js "application/vnd.openxmlformats-officedocument.wordprocessingml.document").
Definition pngFile : File :=
  mkFile 3 (js "photo.png") 2048 (js "image/png").

Definition openDashboard : Dashboard := mkDashboard true None.

(** A file and the three fields of the specification's example. *)
Definition filledState : State :=
  mkState (Some (mkResumeFile pdfFile (fileName pdfFile) (fileSize pdfFile)))
          (mkJobDetails (js "Engineer") (js "Acme") (js "Build things"))
          false (mkDashboard true (Some (js "{}"))).

(** At most one request is in flight, and while one is, the scanning flag
    is on. *)
Definition inFlightGuarded (p : Dialog) : Prop :=
  (List.length (inFlight p) <= 1)%nat
  /\ (inFlight p <> [] -> isScanning (state p) = true).

(** A scan that is shown as running has a request out. *)
Definition scanningHasRequest (p : Dialog) : Prop :=
  isScanning (state p) = true -> inFlight p <> [].

(** Some code unit of the string is no white space. *)
Definition hasInk (x : jsstring) : bool :=
  existsb (fun c => negb (isWhiteSpace c)) x.

End ResumeJDUpload.

(** * Properties *)

(** ** Strings and patterns *)

Lemma streq_eq (a b : jsstring) : streq a b = true <-> a = b.
Proof.
  revert b; induction a as [|x a IH]; intros [|y b]; simpl;
    try (split; [discriminate | congruence]); try tauto.
  rewrite andb_true_iff, N.eqb_eq, IH.
  split; [intros [-> ->]; reflexivity | intros H; inversion H; auto].
Qed.

Lemma streq_refl (a : jsstring) : streq a a = true.
Proof. apply streq_eq; reflexivity. Qed.

Lemma truthy_false (s : jsstring) : truthy s = false <-> s = [].
Proof. destruct s; simpl; split; congruence. Qed.

Lemma dotStarThen_existsb (cls : N -> bool) (s : jsstring) :
  dotStarThen cls s = true -> existsb cls s = true.
Proof.
  induction s as [|c s IH]; simpl; [discriminate|].
  destruct (cls c); simpl; [reflexivity|].
  rewrite andb_true_iff; intros [_ H]; auto.
Qed.

(** The unanchored lookahead finds a code unit of the class wherever it is:
    a line terminator before it only moves the start index past it. *)
Lemma testLookahead_existsb (cls : N -> bool) (s : jsstring) :
  testLookahead cls s = existsb cls s.
Proof.
  induction s as [|c s IH]; [reflexivity|].
  cbn [testLookahead existsb dotStarThen]. rewrite IH.
  destruct (cls c); simpl; [reflexivity|].
  destruct (negb (isLineTerminator c)); simpl; [|reflexivity].
  destruct (dotStarThen cls s) eqn:E; simpl; [|reflexivity].
  symmetry; now apply dotStarThen_existsb.
Qed.





(** [trim] leaves something exactly when some code unit is no white space. *)
Lemma trimStart_nil (s : jsstring) :
  trimStart s = [] <-> forallb isWhiteSpace s = true.
Proof.
  induction s as [|c s IH]; simpl; [tauto|].
  destruct (isWhiteSpace c); simpl; [exact IH|].
  split; discriminate.
Qed.

Lemma truthy_trim (s : jsstring) :
  truthy (trim s) = existsb (fun c => negb (isWhiteSpace c)) s.
Proof.
  unfold trim.
  destruct (forallb isWhiteSpace s) eqn:E.
  - pose proof (proj2 (trimStart_nil s) E) as H; rewrite H; simpl.
    symmetry. apply not_true_is_false; intros Hex.
    apply existsb_exists in Hex; destruct Hex as (c & Hin & Hc).
    rewrite forallb_forall in E; rewrite (E c Hin) in Hc; discriminate.
  - assert (Hne : trimStart s <> []) by (rewrite trimStart_nil, E; discriminate).
    assert (Hex : existsb (fun c => negb (isWhiteSpace c)) s = true).
    { clear Hne. induction s as [|c s IH]; simpl in *; [discriminate|].
      destruct (isWhiteSpace c); simpl in *; auto. }
    rewrite Hex.
    (* the first code unit kept by trimStart is no white space, so the
       second pass, from the other end, cannot eat it *)
    assert (Hhd : exists c t, trimStart s = c :: t /\ isWhiteSpace c = false).
    { clear E Hex. induction s as [|c s IH]; simpl in *; [congruence|].
      destruct (isWhiteSpace c) eqn:W; [auto|].
      exists c, s; auto. }
    destruct Hhd as (c & t & -> & W).
    assert (Hkeep : forall u, trimStart (u ++ [c]) <> []).
    { induction u as [|x u IH]; simpl.
      - rewrite W; discriminate.
      - destruct (isWhiteSpace x); [exact IH | discriminate]. }
    simpl rev. specialize (Hkeep (rev t)).
    destruct (trimStart (rev t ++ [c])) as [|y r] eqn:R; [congruence|].
    simpl. destruct (rev r ++ [y]) eqn:Q; [|reflexivity].
    destruct (rev r); discriminate.
Qed.

(** ** The reset-password page *)

Section ResetPasswordPageFacts.

Import ResetPasswordPage.

Lemma ruleMessage_injective (r r' : Rule) :
  ruleMessage r = ruleMessage r' -> r = r'.
Proof. destruct r, r'; intros H; try reflexivity; vm_compute in H; discriminate. Qed.

Lemma ruleMessage_truthy (r : Rule) : truthy (ruleMessage r) = true.
Proof. destruct r; reflexivity. Qed.

Lemma validatePassword_truthy (p m : jsstring) :
  validatePassword p = Some m -> truthy m = true.
Proof.
  unfold validatePassword.
  repeat match goal with |- context [if ?b then _ else _] => destruct b end;
    intros H; inversion H; reflexivity.
Qed.

Example validatePassword_abcdefgh :
  validatePassword (js "abcdefgh") = Some msgNoUppercase.
Proof. reflexivity. Qed.

Example validatePassword_Abcdefg1 : validatePassword (js "Abcdefg1") = None.
Proof. reflexivity. Qed.

(** C1. [validatePassword] reports the first rule that fails, in the
    order length of at least 8, a lowercase letter, an uppercase letter, a
    digit; it returns [null] exactly when all four rules hold; a password
    of length 8 or more without a lowercase letter gets the lowercase
    message whatever else it lacks. *)
Theorem validatePassword_first_violated (p : jsstring) :
  validatePassword p = option_map ruleMessage (firstViolated p)
  /\ (validatePassword p = None <-> forall r, satisfies r p = true)
  /\ ((8 <= jslength p)%N -> existsb isLowerAZ p = false ->
      validatePassword p = Some msgNoLowercase).
Proof.
  unfold validatePassword, firstViolated, ruleOrder.
  rewrite !testLookahead_existsb. cbn [find satisfies].
  rewrite N.ltb_antisym.
  destruct (8 <=? jslength p)%N eqn:L; cbn [negb].
  2:{ split; [reflexivity|]. split.
      - split; [discriminate|]. intros H; specialize (H MinLength).
        cbn in H; congruence.
      - intros H; apply N.leb_le in H; congruence. }
  destruct (existsb isLowerAZ p) eqn:Lo; cbn [negb].
  2:{ split; [reflexivity|]. split; [|reflexivity].
      split; [discriminate|]. intros H; specialize (H HasLowercase).
      cbn in H; congruence. }
  destruct (existsb isUpperAZ p) eqn:Up; cbn [negb].
  2:{ split; [reflexivity|]. split; [|discriminate].
      split; [discriminate|]. intros H; specialize (H HasUppercase).
      cbn in H; congruence. }
  destruct (existsb isDigit p) eqn:Di; cbn [negb].
  2:{ split; [reflexivity|]. split; [|discriminate].
      split; [discriminate|]. intros H; specialize (H HasDigit).
      cbn in H; congruence. }
  split; [reflexivity|]. split; [|discriminate].
  split; [|reflexivity]. intros _ r; destruct r; cbn; assumption.
Qed.

Lemma validatePassword_first_violated_witness :
  validatePassword (js "ABCDEFGH") = Some msgNoLowercase.
Proof.
  apply (proj2 (proj2 (validatePassword_first_violated (js "ABCDEFGH")))).
  - vm_compute; discriminate.
  - reflexivity.
Defined.

(** *** Local validation *)

Variable backendUrl : option jsstring.
Variable token : option jsstring.

(** The three ways [handleResetPassword] returns before its [await] all
    end in the same shape: the passwords as typed, one of the fixed
    messages as error, the success banner reset, the loading flag off. *)
Lemma handleResetPassword_submit_cases (s : State) :
  (exists msg,
      truthy msg = true
      /\ handleResetPassword_submit backendUrl token s
         = (mkState (passwords s) (Some msg) [] false (tokenValid s)
                    (showPassword s) (showConfirmPassword s), None)
      /\ (password (passwords s) = [] \/ confirmPassword (passwords s) = []
          \/ password (passwords s) <> confirmPassword (passwords s)
          \/ validatePassword (password (passwords s)) <> None))
  \/ (handleResetPassword_submit backendUrl token s
      = (mkState (passwords s) (Some []) [] true (tokenValid s)
                 (showPassword s) (showConfirmPassword s),
         Some (mkRequest (resetUrl backendUrl token) (password (passwords s))))
      /\ password (passwords s) <> []
      /\ password (passwords s) = confirmPassword (passwords s)
      /\ validatePassword (password (passwords s)) = None).
Proof.
  unfold handleResetPassword_submit.
  destruct (truthy (password (passwords s))) eqn:T1; cbn [negb orb].
  2:{ left; exists msgFillAll; repeat split.
      left; now apply truthy_false. }
  destruct (truthy (confirmPassword (passwords s))) eqn:T2; cbn [negb].
  2:{ left; exists msgFillAll; repeat split.
      right; left; now apply truthy_false. }
  destruct (streq (password (passwords s)) (confirmPassword (passwords s))) eqn:E;
    cbn [negb].
  2:{ left; exists msgMismatch; repeat split.
      right; right; left; intros H; apply streq_eq in H; congruence. }
  apply streq_eq in E.
  destruct (validatePassword (password (passwords s))) as [m|] eqn:V; cbn [truthyOpt].
  - rewrite (validatePassword_truthy _ _ V).
    left; exists m; repeat split.
    + exact (validatePassword_truthy _ _ V).
    + right; right; right; discriminate.
  - right; repeat split; try assumption.
    intros H; rewrite H in T1; discriminate.
Qed.

(** *** Mount *)

(** C7. At mount, a missing token sets the validity to invalid and the
    error to the invalid-link message, the invalid-link view is rendered
    and nothing is posted; a token sets the validity to valid, again with
    nothing posted. *)
Theorem mount_token_check :
  (truthyOpt token = false ->
   tokenValid (state (mount token)) = Some false
   /\ error (state (mount token)) = Some msgInvalidLink
   /\ render (state (mount token)) = InvalidResetLinkView msgInvalidLink
   /\ inFlight (mount token) = [] /\ effects (mount token) = [])
  /\ (truthyOpt token = true ->
      tokenValid (state (mount token)) = Some true
      /\ inFlight (mount token) = [] /\ effects (mount token) = []).
Proof.
  unfold mount, useEffect_token; split; intros ->; cbn; repeat split.
Qed.

End ResetPasswordPageFacts.

Lemma mount_token_check_witness :
  ResetPasswordPage.render
    (ResetPasswordPage.state (ResetPasswordPage.mount None))
  = ResetPasswordPage.InvalidResetLinkView ResetPasswordPage.msgInvalidLink
  /\ ResetPasswordPage.tokenValid
       (ResetPasswordPage.state (ResetPasswordPage.mount (Some (js "tok"))))
     = Some true.
Proof.
  split.
  - apply (proj1 (mount_token_check None)); reflexivity.
  - apply (proj2 (mount_token_check (Some (js "tok")))); reflexivity.
Defined.

(** *** Settling, rendering and the life of a page *)

Section ResetPasswordPageLifecycle.

Import ResetPasswordPage.

Variable backendUrl : option jsstring.
Variable token : option jsstring.

Lemma submit_tokenValid (s : State) :
  tokenValid (fst (handleResetPassword_submit backendUrl token s)) = tokenValid s.
Proof.
  destruct (handleResetPassword_submit_cases backendUrl token s)
    as [(msg & _ & -> & _)|(-> & _)]; reflexivity.
Qed.

Lemma submit_isLoading (s : State) :
  isLoading (fst (handleResetPassword_submit backendUrl token s))
  = match snd (handleResetPassword_submit backendUrl token s) with
    | Some _ => true
    | None => false
    end.
Proof.
  destruct (handleResetPassword_submit_cases backendUrl token s)
    as [(msg & _ & -> & _)|(-> & _)]; reflexivity.
Qed.

(** The [finally] block: whatever the outcome, the loading flag is off. *)
Lemma settle_isLoading (o : Outcome) (s : State) :
  isLoading (fst (handleResetPassword_settle o s)) = false.
Proof.
  unfold handleResetPassword_settle.
  destruct o as [[d|]|status d|]; cbn.
  - destruct (dataSuccess d); reflexivity.
  - reflexivity.
  - destruct ((status =? 400) || (status =? 404))%N; reflexivity.
  - reflexivity.
Qed.

Lemma settle_tokenValid (o : Outcome) (s : State) :
  tokenValid (fst (handleResetPassword_settle o s))
  = if isTokenRejection o then Some false else tokenValid s.
Proof.
  unfold handleResetPassword_settle.
  destruct o as [[d|]|status d|]; cbn.
  - destruct (dataSuccess d); reflexivity.
  - reflexivity.
  - destruct ((status =? 400) || (status =? 404))%N; reflexivity.
  - reflexivity.
Qed.

Lemma handleChange_keeps (name : Field) (value : jsstring) (s : State) :
  tokenValid (handleChange name value s) = tokenValid s
  /\ isLoading (handleChange name value s) = isLoading s.
Proof.
  unfold handleChange.
  destruct (truthyOpt (error s)), (truthy (success s)); split; reflexivity.
Qed.

Lemma render_form (s : State) (f : FormView) :
  render s = ResetFormView f ->
  tokenValid s = Some true
  /\ inputsDisabled f = isLoading s
  /\ submitDisabled f
     = (isLoading s || negb (truthy (password (passwords s)))
        || negb (truthy (confirmPassword (passwords s)))).
Proof.
  unfold render. destruct (tokenValid s) as [[|]|]; try discriminate.
  intros H; inversion H; subst; auto.
Qed.

Lemma render_invalid (s : State) :
  tokenValid s = Some false -> exists m, render s = InvalidResetLinkView m.
Proof. unfold render; intros ->; eauto. Qed.

(** One event changes the token validity only by a settled request that
    was rejected with status 400 or 404, and then to invalid. *)
Lemma step_tokenValid (p p' : Page) (e : Event) :
  step backendUrl token p e = Some p' ->
  tokenValid (state p') = tokenValid (state p)
  \/ (tokenValid (state p') = Some false
      /\ exists status data,
          e = Settle (RejectedWithResponse status data)
          /\ (status = 400 \/ status = 404)%N).
Proof.
  unfold step.
  destruct e as [name value| | | |o].
  - destruct (render (state p)) as [|m|f]; try discriminate.
    destruct (inputsDisabled f); [discriminate|].
    intros H; inversion H; subst; cbn. left; apply handleChange_keeps.
  - destruct (render (state p)) as [|m|f]; try discriminate.
    destruct (submitDisabled f); [discriminate|].
    pose proof (submit_tokenValid (state p)) as TV.
    destruct (handleResetPassword_submit backendUrl token (state p)) as [s' [r|]];
      intros H; inversion H; subst; cbn in *; left; exact TV.
  - destruct (render (state p)) as [|m|f]; try discriminate.
    destruct (inputsDisabled f); [discriminate|].
    intros H; inversion H; subst; cbn. left; reflexivity.
  - destruct (render (state p)) as [|m|f]; try discriminate.
    destruct (inputsDisabled f); [discriminate|].
    intros H; inversion H; subst; cbn. left; reflexivity.
  - assert (G : match inFlight p with
                | [] => None
                | _ :: rest =>
                    let '(s', effs) := handleResetPassword_settle o (state p) in
                    Some (mkPage s' rest (effects p ++ effs))
                end = Some p' ->
                tokenValid (state p') = tokenValid (state p)
                \/ (tokenValid (state p') = Some false
                    /\ exists status data,
                        Settle o = Settle (RejectedWithResponse status data)
                        /\ (status = 400 \/ status = 404)%N)).
    { destruct (inFlight p) as [|r rest]; [discriminate|].
      pose proof (settle_tokenValid o (state p)) as TV.
      destruct (handleResetPassword_settle o (state p)) as [s' effs].
      intros H; inversion H; subst; cbn in *.
      destruct o as [d|status d|]; cbn in TV; auto.
      destruct ((status =? 400) || (status =? 404))%N eqn:St; auto.
      right; split; [exact TV|]. exists status, d; split; [reflexivity|].
      apply orb_true_iff in St; rewrite !N.eqb_eq in St; exact St. }
    destruct (render (state p)); exact G.
Qed.

(** Without the form on screen, neither typing nor submitting is on offer. *)
Lemma step_invalid_offers (p : Page) :
  tokenValid (state p) = Some false ->
  step backendUrl token p Submit = None
  /\ forall name value, step backendUrl token p (Change name value) = None.
Proof.
  intros TV. destruct (render_invalid _ TV) as [m R].
  unfold step; rewrite R; auto.
Qed.

Lemma run_invalid (es : list Event) (p : Page) :
  tokenValid (state p) = Some false ->
  tokenValid (state (run backendUrl token p es)) = Some false.
Proof.
  revert p; induction es as [|e es IH]; intros p TV; cbn [run]; [exact TV|].
  destruct (step backendUrl token p e) as [p'|] eqn:S; [|auto].
  apply IH. destruct (step_tokenValid _ _ _ S) as [H|[H _]]; congruence.
Qed.

(** C5. The token validity starts unknown; the mount effect makes it
    invalid without a token and valid with one; a step takes it from
    valid to invalid only when a request settles rejected with status 400
    or 404; and once invalid it stays invalid through every later event,
    the invalid-link view is what is rendered, and submitting is not on
    offer. *)
Theorem tokenValid_state_machine :
  tokenValid initialState = None
  /\ tokenValid (state (mount token)) = Some (truthyOpt token)
  /\ (forall p e p',
        step backendUrl token p e = Some p' ->
        tokenValid (state p) = Some true ->
        tokenValid (state p') = Some true
        \/ (tokenValid (state p') = Some false
            /\ exists status data,
                e = Settle (RejectedWithResponse status data)
                /\ (status = 400 \/ status = 404)%N))
  /\ (forall p es,
        tokenValid (state p) = Some false ->
        let p' := run backendUrl token p es in
        tokenValid (state p') = Some false
        /\ (exists m, render (state p') = InvalidResetLinkView m)
        /\ step backendUrl token p' Submit = None).
Proof.
  split; [reflexivity|]. split.
  { unfold mount, useEffect_token. destruct (truthyOpt token); reflexivity. }
  split.
  - intros p e p' S TV.
    destruct (step_tokenValid _ _ _ S) as [H|H]; [left; congruence | right; exact H].
  - intros p es TV p'. subst p'.
    pose proof (run_invalid es p TV) as TV'.
    split; [exact TV'|]. split; [now apply render_invalid|].
    now apply step_invalid_offers.
Qed.

End ResetPasswordPageLifecycle.

Lemma tokenValid_state_machine_witness :
  ResetPasswordPage.tokenValid
    (ResetPasswordPage.state
       (ResetPasswordPage.run None (Some (js "tok"))
          (ResetPasswordPage.run None (Some (js "tok"))
             (ResetPasswordPage.mount (Some (js "tok")))
             [ResetPasswordPage.Change ResetPasswordPage.FieldPassword (js "Abcdefg1");
              ResetPasswordPage.Change ResetPasswordPage.FieldConfirmPassword (js "Abcdefg1");
              ResetPasswordPage.Submit;
              ResetPasswordPage.Settle
                (ResetPasswordPage.RejectedWithResponse 404 None)])
          [ResetPasswordPage.Change ResetPasswordPage.FieldPassword (js "Abcdefg2");
           ResetPasswordPage.Submit]))
  = Some false.
Proof.
  apply (proj2 (proj2 (proj2
           (tokenValid_state_machine None (Some (js "tok")))))).
  reflexivity.
Defined.

Section ResetPasswordPageResponses.

Import ResetPasswordPage.

Variable backendUrl : option jsstring.
Variable token : option jsstring.

(** With a response, the error is the body's [message], else its [error],
    else [undefined]; the validity flips exactly on 400 and 404. *)
Lemma settle_rejected_with_response (status : N) (data : option ResponseData)
    (s : State) :
  let s' := fst (handleResetPassword_settle (RejectedWithResponse status data) s) in
  error s' = match data with
             | Some d => jsor (dataMessage d) (dataError d)
             | None => None
             end
  /\ tokenValid s'
     = if ((status =? 400) || (status =? 404))%N then Some false else tokenValid s.
Proof.
  unfold handleResetPassword_settle.
  destruct ((status =? 400) || (status =? 404))%N; split; reflexivity.
Qed.

(** C3, at the failing input. A request on a valid token rejected with
    status 500 and a body without [message] and [error] leaves the error
    [undefined]: the form is rendered again and shows no error at all. *)
Theorem settle_rejected_500_without_message :
  let s := mkState (mkPasswords (js "Abcdefg1") (js "Abcdefg1"))
                   (Some []) [] true (Some true) false false in
  let s' := fst (handleResetPassword_settle
                   (RejectedWithResponse 500 (Some (mkData false None None))) s) in
  error s' = None
  /\ render s'
     = ResetFormView (mkFormView false None None false).
Proof. split; reflexivity. Qed.

(** C9, as the code has it. When the request is fulfilled and the body's
    [success] is truthy, the success banner is set to a non-empty text
    (shown by the form), both password fields are cleared, and a timer of
    3000 ms is set whose callback pushes the sign-in route. *)
Theorem settle_fulfilled_success (s : State) (data : ResponseData) :
  dataSuccess data = true ->
  exists banner,
    truthy banner = true
    /\ handleResetPassword_settle (Fulfilled (Some data)) s
       = (mkState (mkPasswords [] []) (error s) banner false (tokenValid s)
                  (showPassword s) (showConfirmPassword s),
          [SetTimeout (RouterPush (js "/signin")) 3000])
    /\ (tokenValid s = Some true ->
        exists f,
          render (fst (handleResetPassword_settle (Fulfilled (Some data)) s))
          = ResetFormView f
          /\ shownSuccess f = Some banner).
Proof.
  intros S. unfold handleResetPassword_settle; rewrite S.
  exists (if truthyOpt (dataMessage data)
          then interpolate (dataMessage data) else msgResetDone).
  assert (T : truthy (if truthyOpt (dataMessage data)
                      then interpolate (dataMessage data) else msgResetDone) = true).
  { destruct (dataMessage data) as [m|]; cbn; [|reflexivity].
    destruct (truthy m) eqn:E; [exact E | reflexivity]. }
  split; [exact T|]. split; [reflexivity|].
  intros TV. unfold render; cbn [fst tokenValid setIsLoading setPasswords setSuccess success].
  rewrite TV. eexists; split; [reflexivity|].
  cbn [shownSuccess]. now rewrite T.
Qed.

(** C9, the counterexample. A fulfilled request whose body has a falsy
    [success] shows no success banner, keeps both password fields and
    sets no timer. *)
Lemma settle_fulfilled_without_success_flag :
  let s := mkState (mkPasswords (js "Abcdefg1") (js "Abcdefg1"))
                   (Some []) [] true (Some true) false false in
  let r := handleResetPassword_settle
             (Fulfilled (Some (mkData false (Some (js "try later")) None))) s in
  truthy (success (fst r)) = false
  /\ passwords (fst r) = mkPasswords (js "Abcdefg1") (js "Abcdefg1")
  /\ snd r = [].
Proof. repeat split. Qed.

(** Every step keeps the in-flight guard: the submit button is disabled
    while the flag is on, and the flag is on while a request is out. *)
Lemma step_inFlightGuarded (p p' : Page) (e : Event) :
  step backendUrl token p e = Some p' ->
  inFlightGuarded p -> inFlightGuarded p'.
Proof.
  unfold inFlightGuarded, step. intros S [Len Flag].
  destruct e as [name value| | | |o].
  - destruct (render (state p)) as [|m|f]; try discriminate.
    destruct (inputsDisabled f); [discriminate|].
    inversion S; subst; cbn. split; [exact Len|].
    intros H. rewrite (proj2 (handleChange_keeps name value (state p))); auto.
  - destruct (render (state p)) as [|m|f] eqn:R; try discriminate.
    destruct (submitDisabled f) eqn:D; [discriminate|].
    apply render_form in R. destruct R as (_ & _ & R). rewrite R in D.
    apply orb_false_iff in D; destruct D as [D _].
    apply orb_false_iff in D; destruct D as [D _].
    assert (E : inFlight p = []).
    { destruct (inFlight p) as [|r l]; [reflexivity|].
      rewrite Flag in D; [discriminate | discriminate]. }
    pose proof (submit_isLoading backendUrl token (state p)) as L.
    destruct (handleResetPassword_submit backendUrl token (state p)) as [s' [r|]];
      inversion S; subst; cbn in *; rewrite E; cbn.
    + split; [lia | intros _; exact L].
    + split; [lia | congruence].
  - destruct (render (state p)) as [|m|f]; try discriminate.
    destruct (inputsDisabled f); [discriminate|].
    inversion S; subst; cbn. auto.
  - destruct (render (state p)) as [|m|f]; try discriminate.
    destruct (inputsDisabled f); [discriminate|].
    inversion S; subst; cbn. auto.
  - assert (G : match inFlight p with
                | [] => None
                | _ :: rest =>
                    let '(s', effs) := handleResetPassword_settle o (state p) in
                    Some (mkPage s' rest (effects p ++ effs))
                end = Some p').
    { destruct (render (state p)); exact S. }
    destruct (inFlight p) as [|r rest]; [discriminate|].
    destruct (handleResetPassword_settle o (state p)) as [s' effs].
    inversion G; subst; cbn in *.
    assert (rest = []) by (destruct rest; [reflexivity | cbn in Len; lia]).
    subst rest; split; [cbn; lia | congruence].
Qed.

Lemma run_inFlightGuarded (es : list Event) (p : Page) :
  inFlightGuarded p -> inFlightGuarded (run backendUrl token p es).
Proof.
  revert p; induction es as [|e es IH]; intros p G; cbn [run]; [exact G|].
  destruct (step backendUrl token p e) as [p'|] eqn:S; [|auto].
  apply IH. exact (step_inFlightGuarded _ _ _ S G).
Qed.

Lemma mount_inFlightGuarded : inFlightGuarded (mount token).
Proof. split; cbn; [lia | congruence]. Qed.

End ResetPasswordPageResponses.

Lemma settle_fulfilled_success_witness :
  exists banner,
    truthy banner = true
    /\ ResetPasswordPage.handleResetPassword_settle
         (ResetPasswordPage.Fulfilled
            (Some (ResetPasswordPage.mkData true None None)))
         (ResetPasswordPage.mkState
            (ResetPasswordPage.mkPasswords (js "Abcdefg1") (js "Abcdefg1"))
            (Some []) [] true (Some true) false false)
       = (ResetPasswordPage.mkState
            (ResetPasswordPage.mkPasswords [] [])
            (Some []) banner false (Some true) false false,
          [ResetPasswordPage.SetTimeout
             (ResetPasswordPage.RouterPush (js "/signin")) 3000]).
Proof.
  destruct (settle_fulfilled_success
              (ResetPasswordPage.mkState
                 (ResetPasswordPage.mkPasswords (js "Abcdefg1") (js "Abcdefg1"))
                 (Some []) [] true (Some true) false false)
              (ResetPasswordPage.mkData true None None) eq_refl)
    as (banner & T & E & _).
  exists banner; split; [exact T | exact E].
Defined.

(** ** The resume upload dialog *)

Section ResumeJDUploadFacts.

Import ResumeJDUpload.

Variable fastapiUrl : option jsstring.


Example handleFileUpload_png :
  resumeFile (handleFileUpload (Some pngFile) (initialState openDashboard)) = None.
Proof. reflexivity. Qed.

Example handleFileUpload_docx :
  resumeFile (handleFileUpload (Some docxFile) (initialState openDashboard))
  = Some (mkResumeFile docxFile (js "cv.docx") 90000).
Proof. reflexivity. Qed.


(** *** Enablement and the guard of the handler *)

Lemma isFormValid_spec (s : State) :
  isFormValid s = true
  <-> resumeFile s <> None
      /\ trim (title (jobDetails s)) <> []
      /\ trim (company (jobDetails s)) <> []
      /\ trim (description (jobDetails s)) <> [].
Proof.
  unfold isFormValid.
  destruct (resumeFile s) as [rf|].
  - rewrite !andb_true_iff.
    assert (T : forall x, truthy x = true <-> x <> []).
    { intros [|c x]; cbn; split; congruence. }
    rewrite !T. split; [intros [[A B] C] | intros (_ & A & B & C)]; repeat split;
      auto; discriminate.
  - split; [discriminate | intros [H _]; congruence].
Qed.

Lemma trim_nonempty_nonempty (x : jsstring) : trim x <> [] -> x <> [].
Proof. intros H ->; apply H; reflexivity. Qed.

Lemma submit_request_iff (s : State) :
  snd (handleStartScanning_submit fastapiUrl s) = None
  <-> resumeFile s = None \/ title (jobDetails s) = []
      \/ company (jobDetails s) = [] \/ description (jobDetails s) = [].
Proof.
  unfold handleStartScanning_submit.
  destruct (resumeFile s) as [rf|]; [|cbn; tauto].
  destruct (title (jobDetails s)) as [|a t]; [cbn; tauto|].
  destruct (company (jobDetails s)) as [|b c]; [cbn; tauto|].
  destruct (description (jobDetails s)) as [|e d]; [cbn; tauto|].
  cbn. split; [discriminate|]. intros [H|[H|[H|H]]]; discriminate.
Qed.

Example submitEnabled_filledState : submitEnabled filledState = true.
Proof. reflexivity. Qed.

(** C6, as the code has it. The Start Analysis button is enabled exactly
    when a file is selected, each of the three fields is non-empty after
    trimming, and no scan is running. The handler has a guard of its own,
    which asks less: a selected file and three fields that are non-empty
    as typed. An enabled button therefore always passes the guard, a
    missing file or an empty field stops the handler itself, and a field
    of white space only or a running scan is stopped by the disabled
    button, which does not call the handler. *)
Theorem submitEnabled_and_handler_guard (s : State) :
  (submitEnabled s = true
   <-> resumeFile s <> None
       /\ trim (title (jobDetails s)) <> []
       /\ trim (company (jobDetails s)) <> []
       /\ trim (description (jobDetails s)) <> []
       /\ isScanning s = false)
  /\ (snd (handleStartScanning_submit fastapiUrl s) = None
      <-> resumeFile s = None \/ title (jobDetails s) = []
          \/ company (jobDetails s) = [] \/ description (jobDetails s) = [])
  /\ (submitEnabled s = true ->
      snd (handleStartScanning_submit fastapiUrl s) <> None)
  /\ (submitEnabled s = false ->
      forall pending done,
        step fastapiUrl (mkDialog s pending done) ClickStart = None).
Proof.
  assert (E : submitEnabled s = true
              <-> resumeFile s <> None
                  /\ trim (title (jobDetails s)) <> []
                  /\ trim (company (jobDetails s)) <> []
                  /\ trim (description (jobDetails s)) <> []
                  /\ isScanning s = false).
  { unfold submitEnabled, startDisabled.
    rewrite negb_true_iff, orb_false_iff, negb_false_iff, isFormValid_spec.
    tauto. }
  split; [exact E|]. split; [apply submit_request_iff|]. split.
  - intros H. apply E in H. destruct H as (F & T & C & D & _).
    rewrite submit_request_iff.
    intros [X|[X|[X|X]]].
    + congruence.
    + exact (trim_nonempty_nonempty _ T X).
    + exact (trim_nonempty_nonempty _ C X).
    + exact (trim_nonempty_nonempty _ D X).
  - intros H pending done. unfold step; cbn [state].
    unfold submitEnabled in H. apply negb_false_iff in H. now rewrite H.
Qed.

(** C6, the counterexample. With a title of two spaces the button is
    disabled, yet the handler, called in that state, posts the request. *)
Lemma handleStartScanning_blank_title :
  let s := setJobDetails (mkJobDetails (js "  ") (js "Acme") (js "Build things"))
                         filledState in
  submitEnabled s = false
  /\ trim (title (jobDetails s)) = []
  /\ snd (handleStartScanning_submit None s)
     = Some (mkRequest (js "undefined/api/v1/resume/analyse")
               [(js "resume_file", FormFile pdfFile);
                (js "job_description", FormText (js "Build things"));
                (js "job_title", FormText (js "  "))]
               true
               [(js "Content-Type", js "multipart/form-data")]).
Proof. repeat split. Qed.

(** *** A failed analysis *)

Lemma settle_rejected_state (o : Outcome) (s : State) :
  o = RejectedAxios \/ o = RejectedOther ->
  fst (handleStartScanning_settle o s) = setIsScanning false s.
Proof. intros [-> | ->]; reflexivity. Qed.

(** C10. When the posted analysis request is rejected, the file, the
    three job fields and the dialog flag are what they were before the
    click, the scanning flag is off, the shared result, set to [null]
    before the request, is still [null], and a second click posts the
    same request again. The rejection itself, in whatever state it
    arrives, changes nothing but the scanning flag. *)
Theorem failed_analysis_keeps_form (s s1 : State) (r : Request) (o : Outcome) :
  handleStartScanning_submit fastapiUrl s = (s1, Some r) ->
  o = RejectedAxios \/ o = RejectedOther ->
  let s2 := fst (handleStartScanning_settle o s1) in
  resumeFile s2 = resumeFile s
  /\ jobDetails s2 = jobDetails s
  /\ openDialog (dashboard s2) = openDialog (dashboard s)
  /\ isScanning s2 = false
  /\ resumeAnalysisData (dashboard s1) = None
  /\ resumeAnalysisData (dashboard s2) = None
  /\ handleStartScanning_submit fastapiUrl s2 = (s1, Some r)
  /\ (forall s', fst (handleStartScanning_settle o s') = setIsScanning false s').
Proof.
  intros S O s2. subst s2. rewrite (settle_rejected_state o s1 O).
  assert (G : forall s', fst (handleStartScanning_settle o s') = setIsScanning false s')
    by (intros s'; now apply settle_rejected_state).
  unfold handleStartScanning_submit in *.
  destruct (resumeFile s) as [rf|] eqn:RF; [|discriminate].
  destruct (truthy (title (jobDetails s)) && truthy (company (jobDetails s))
            && truthy (description (jobDetails s))) eqn:T; [|discriminate].
  inversion S; subst; cbn. rewrite RF, T. repeat split; auto.
Qed.

(** *** Requests in flight *)

(** Every event but closing the dialog keeps the in-flight guard. *)
Lemma upload_step_inFlightGuarded (p p' : Dialog) (e : Event) :
  isClickClose e = false ->
  step fastapiUrl p e = Some p' ->
  inFlightGuarded p -> inFlightGuarded p'.
Proof.
  unfold inFlightGuarded, step. intros NC S [Len Flag].
  destruct e as [first|first|field value| | |o]; try discriminate.
  - inversion S; subst; cbn. split; [exact Len|].
    intros H; specialize (Flag H). unfold handleFileUpload.
    destruct first as [f|]; [|exact Flag].
    destruct (acceptsType (fileType f)); exact Flag.
  - inversion S; subst; cbn. split; [exact Len|].
    intros H; specialize (Flag H). unfold handleDrop.
    destruct first as [f|]; [|exact Flag].
    destruct (acceptsType (fileType f)); exact Flag.
  - inversion S; subst; cbn. auto.
  - destruct (startDisabled (state p)) eqn:D; [discriminate|].
    unfold startDisabled in D. apply orb_false_iff in D; destruct D as [_ D].
    assert (E : inFlight p = []).
    { destruct (inFlight p) as [|r l]; [reflexivity|].
      rewrite Flag in D; discriminate. }
    unfold handleStartScanning_submit in S.
    destruct (resumeFile (state p)) as [rf|].
    + destruct (truthy (title (jobDetails (state p)))
                && truthy (company (jobDetails (state p)))
                && truthy (description (jobDetails (state p))));
        inversion S; subst; cbn; rewrite E; cbn; split; try lia; congruence.
    + inversion S; subst; cbn; rewrite E; cbn; split; try lia; congruence.
  - destruct (inFlight p) as [|r rest]; [discriminate|].
    destruct o; inversion S; subst; cbn in *;
      (assert (rest = []) by (destruct rest; [reflexivity | cbn in Len; lia]));
      subst rest; split; cbn; try lia; congruence.
Qed.

Lemma upload_run_inFlightGuarded (es : list Event) (p : Dialog) :
  forallb (fun e => negb (isClickClose e)) es = true ->
  inFlightGuarded p -> inFlightGuarded (run fastapiUrl p es).
Proof.
  revert p; induction es as [|e es IH]; intros p NC G; cbn [run]; [exact G|].
  cbn in NC. apply andb_true_iff in NC. destruct NC as [NC1 NC].
  apply negb_true_iff in NC1.
  destruct (step fastapiUrl p e) as [p'|] eqn:S; [|auto].
  apply IH; [exact NC|]. exact (upload_step_inFlightGuarded _ _ _ NC1 S G).
Qed.

Lemma upload_settle_isScanning (o : Outcome) (s : State) :
  isScanning (fst (handleStartScanning_settle o s)) = false.
Proof. destruct o; reflexivity. Qed.

(** The close button also turns the scanning flag off. If the dashboard
    keeps the dialog mounted after that, a request may still be out while
    a second one is posted. *)
Example close_while_scanning :
  List.length
    (inFlight
       (run None (mkDialog filledState [] [])
          [ClickStart;
           ClickClose;
           FileUpload (Some pdfFile);
           JobDetailsChange FieldTitle (js "Engineer");
           JobDetailsChange FieldCompany (js "Acme");
           JobDetailsChange FieldDescription (js "Build things");
           ClickStart]))
  = 2%nat.
Proof. reflexivity. Qed.

End ResumeJDUploadFacts.


Lemma submitEnabled_and_handler_guard_witness :
  snd (ResumeJDUpload.handleStartScanning_submit None ResumeJDUpload.filledState)
  <> None
  /\ ResumeJDUpload.step None
       (ResumeJDUpload.mkDialog
          (ResumeJDUpload.setIsScanning true ResumeJDUpload.filledState) [] [])
       ResumeJDUpload.ClickStart
     = None.
Proof.
  split.
  - apply (submitEnabled_and_handler_guard None ResumeJDUpload.filledState).
    reflexivity.
  - apply (submitEnabled_and_handler_guard None
             (ResumeJDUpload.setIsScanning true ResumeJDUpload.filledState)).
    reflexivity.
Defined.

Lemma failed_analysis_keeps_form_witness :
  let s1 := fst (ResumeJDUpload.handleStartScanning_submit None
                   ResumeJDUpload.filledState) in
  let s2 := fst (ResumeJDUpload.handleStartScanning_settle
                   ResumeJDUpload.RejectedAxios s1) in
  ResumeJDUpload.resumeFile s2
  = ResumeJDUpload.resumeFile ResumeJDUpload.filledState
  /\ ResumeJDUpload.jobDetails s2
     = ResumeJDUpload.jobDetails ResumeJDUpload.filledState
  /\ ResumeJDUpload.openDialog (ResumeJDUpload.dashboard s2) = true
  /\ ResumeJDUpload.resumeAnalysisData
       (ResumeJDUpload.dashboard ResumeJDUpload.filledState)
     = Some (js "{}")
  /\ ResumeJDUpload.resumeAnalysisData (ResumeJDUpload.dashboard s2) = None.
Proof.
  intros s1 s2.
  destruct (failed_analysis_keeps_form None ResumeJDUpload.filledState s1
              (ResumeJDUpload.mkRequest (js "undefined/api/v1/resume/analyse")
                 [(js "resume_file", ResumeJDUpload.FormFile ResumeJDUpload.pdfFile);
                  (js "job_description", ResumeJDUpload.FormText (js "Build things"));
                  (js "job_title", ResumeJDUpload.FormText (js "Engineer"))]
                 true
                 [(js "Content-Type", js "multipart/form-data")])
              ResumeJDUpload.RejectedAxios eq_refl (or_introl eq_refl))
    as (F & J & D & _ & _ & R & _).
  split; [exact F|]. split; [exact J|]. split; [exact D|].
  split; [reflexivity | exact R].
Defined.

(** ** One request at a time, in both components *)

(** C2, the counterexample. Neither handler looks at its flag: called
    while the flag is on, with inputs that pass its checks, each posts
    again. *)
Lemma handlers_ignore_flag :
  let sR := ResetPasswordPage.mkState
              (ResetPasswordPage.mkPasswords (js "Abcdefg1") (js "Abcdefg1"))
              (Some []) [] true (Some true) false false in
  let sU := ResumeJDUpload.setIsScanning true ResumeJDUpload.filledState in
  ResetPasswordPage.isLoading sR = true
  /\ snd (ResetPasswordPage.handleResetPassword_submit None (Some (js "tok")) sR)
     = Some (ResetPasswordPage.mkRequest
               (js "undefined/api/auth/reset-password/tok") (js "Abcdefg1"))
  /\ ResumeJDUpload.isScanning sU = true
  /\ snd (ResumeJDUpload.handleStartScanning_submit None sU)
     = snd (ResumeJDUpload.handleStartScanning_submit None
              ResumeJDUpload.filledState)
  /\ snd (ResumeJDUpload.handleStartScanning_submit None sU) <> None.
Proof. repeat split; discriminate. Qed.

(** C2, as the code has it. The flag is tested by the button, not by the
    handler: while [isLoading] (or [isScanning]) is on, the submit button
    is disabled. Through the buttons the reset page never has more than
    one request in flight, and neither has the upload dialog as long as
    it is not closed (closing also turns [isScanning] off). When a
    request settles, fulfilled or rejected, the flag is turned off. *)
Theorem one_request_in_flight :
  (forall backendUrl token es,
      (List.length
         (ResetPasswordPage.inFlight
            (ResetPasswordPage.run backendUrl token
               (ResetPasswordPage.mount token) es)) <= 1)%nat)
  /\ (forall s f,
        ResetPasswordPage.render s = ResetPasswordPage.ResetFormView f ->
        ResetPasswordPage.isLoading s = true ->
        ResetPasswordPage.submitDisabled f = true)
  /\ (forall o s,
        ResetPasswordPage.isLoading
          (fst (ResetPasswordPage.handleResetPassword_settle o s)) = false)
  /\ (forall fastapiUrl d es,
        forallb (fun e => negb (ResumeJDUpload.isClickClose e)) es = true ->
        (List.length
           (ResumeJDUpload.inFlight
              (ResumeJDUpload.run fastapiUrl (ResumeJDUpload.opened d) es)) <= 1)%nat)
  /\ (forall s,
        ResumeJDUpload.isScanning s = true ->
        ResumeJDUpload.startDisabled s = true)
  /\ (forall o s,
        ResumeJDUpload.isScanning
          (fst (ResumeJDUpload.handleStartScanning_settle o s)) = false).
Proof.
  split.
  { intros backendUrl token es.
    apply (run_inFlightGuarded backendUrl token es), mount_inFlightGuarded. }
  split.
  { intros s f R L. apply render_form in R. destruct R as (_ & _ & ->).
    now rewrite L. }
  split; [exact settle_isLoading|].
  split.
  { intros fastapiUrl d es NC.
    apply (upload_run_inFlightGuarded fastapiUrl es _ NC).
    split; cbn; [lia | congruence]. }
  split; [|exact upload_settle_isScanning].
  intros s H. unfold ResumeJDUpload.startDisabled. rewrite H. apply orb_true_r.
Qed.

Lemma one_request_in_flight_witness :
  (List.length
     (ResumeJDUpload.inFlight
        (ResumeJDUpload.run None
           (ResumeJDUpload.opened ResumeJDUpload.openDashboard)
           [ResumeJDUpload.FileUpload (Some ResumeJDUpload.pdfFile);
            ResumeJDUpload.JobDetailsChange ResumeJDUpload.FieldTitle (js "Engineer");
            ResumeJDUpload.JobDetailsChange ResumeJDUpload.FieldCompany (js "Acme");
            ResumeJDUpload.JobDetailsChange ResumeJDUpload.FieldDescription
              (js "Build things");
            ResumeJDUpload.ClickStart;
            ResumeJDUpload.ClickStart])) <= 1)%nat
  /\ ResumeJDUpload.startDisabled
       (ResumeJDUpload.setIsScanning true ResumeJDUpload.filledState) = true.
Proof.
  split.
  - apply (proj1 (proj2 (proj2 (proj2 one_request_in_flight)))).
    reflexivity.
  - apply (proj1 (proj2 (proj2 (proj2 (proj2 one_request_in_flight))))).
    reflexivity.
Defined.

(** ** Submissions stopped by the local checks *)

Section ResetPasswordPageLocalChecks.

Import ResetPasswordPage.

Variable backendUrl : option jsstring.
Variable token : option jsstring.

Lemma step_bannerOverClearedFields (p p' : Page) (e : Event) :
  step backendUrl token p e = Some p' ->
  bannerOverClearedFields (state p) -> bannerOverClearedFields (state p').
Proof.
  unfold bannerOverClearedFields, step. intros S B.
  destruct e as [name value| | | |o].
  - destruct (render (state p)) as [|m|f]; try discriminate.
    destruct (inputsDisabled f); [discriminate|].
    inversion S; subst; cbn. unfold handleChange.
    destruct (truthy (success (state p))) eqn:T.
    + destruct (truthyOpt (error (state p))); cbn; congruence.
    + apply truthy_false in T.
      destruct (truthyOpt (error (state p))); cbn; congruence.
  - destruct (render (state p)) as [|m|f]; try discriminate.
    destruct (submitDisabled f); [discriminate|].
    destruct (handleResetPassword_submit_cases backendUrl token (state p))
      as [(msg & _ & E & _)|(E & _)]; rewrite E in S;
      inversion S; subst; cbn; congruence.
  - destruct (render (state p)) as [|m|f]; try discriminate.
    destruct (inputsDisabled f); [discriminate|].
    inversion S; subst; cbn. exact B.
  - destruct (render (state p)) as [|m|f]; try discriminate.
    destruct (inputsDisabled f); [discriminate|].
    inversion S; subst; cbn. exact B.
  - assert (G : match inFlight p with
                | [] => None
                | _ :: rest =>
                    let '(s', effs) := handleResetPassword_settle o (state p) in
                    Some (mkPage s' rest (effects p ++ effs))
                end = Some p').
    { destruct (render (state p)); exact S. }
    destruct (inFlight p) as [|r rest]; [discriminate|].
    unfold handleResetPassword_settle in G.
    destruct o as [[d|]|status d|].
    + destruct (dataSuccess d); inversion G; subst; cbn; auto.
    + inversion G; subst; cbn; auto.
    + destruct ((status =? 400) || (status =? 404))%N;
        inversion G; subst; cbn; auto.
    + inversion G; subst; cbn; auto.
Qed.

Lemma run_bannerOverClearedFields (es : list Event) (p : Page) :
  bannerOverClearedFields (state p) ->
  bannerOverClearedFields (state (run backendUrl token p es)).
Proof.
  revert p; induction es as [|e es IH]; intros p B; cbn [run]; [exact B|].
  destruct (step backendUrl token p e) as [p'|] eqn:S; [|auto].
  apply IH. exact (step_bannerOverClearedFields _ _ _ S B).
Qed.

Lemma mount_bannerOverClearedFields :
  bannerOverClearedFields (state (mount token)).
Proof.
  unfold mount, useEffect_token, bannerOverClearedFields.
  destruct (truthyOpt token); cbn; congruence.
Qed.

(** C4, as the code has it. When the password is empty, the confirmation
    is empty, the two differ, or [validatePassword] rejects the password,
    the submit handler sets a non-empty error, posts nothing, and leaves
    the two password fields, the token validity and the visibility
    toggles as they were; it also empties the success banner and leaves
    the loading flag off, as every submit first resets them. On a mounted
    page, a submit through the enabled button that is stopped because the
    fields differ or the password is rejected changes the error and
    nothing else: the rest of the state, the requests in flight and the
    effects issued are the same. *)
Theorem handleResetPassword_rejects_locally :
  (forall s,
      password (passwords s) = [] \/ confirmPassword (passwords s) = []
      \/ password (passwords s) <> confirmPassword (passwords s)
      \/ validatePassword (password (passwords s)) <> None ->
      exists msg,
        truthy msg = true
        /\ handleResetPassword_submit backendUrl token s
           = (mkState (passwords s) (Some msg) [] false (tokenValid s)
                      (showPassword s) (showConfirmPassword s), None))
  /\ (forall es p',
        let p := run backendUrl token (mount token) es in
        step backendUrl token p Submit = Some p' ->
        password (passwords (state p)) <> confirmPassword (passwords (state p))
        \/ validatePassword (password (passwords (state p))) <> None ->
        exists msg,
          truthy msg = true
          /\ p' = mkPage (setError (Some msg) (state p)) (inFlight p) (effects p)).
Proof.
  assert (Handler : forall s,
             password (passwords s) = [] \/ confirmPassword (passwords s) = []
             \/ password (passwords s) <> confirmPassword (passwords s)
             \/ validatePassword (password (passwords s)) <> None ->
             exists msg,
               truthy msg = true
               /\ handleResetPassword_submit backendUrl token s
                  = (mkState (passwords s) (Some msg) [] false (tokenValid s)
                             (showPassword s) (showConfirmPassword s), None)).
  { intros s H.
    destruct (handleResetPassword_submit_cases backendUrl token s)
      as [(msg & T & E & _)|(_ & N & Q & V)].
    - exists msg; auto.
    - destruct H as [H|[H|[H|H]]]; congruence. }
  split; [exact Handler|].
  intros es p' p S C.
  pose proof (run_bannerOverClearedFields es _ mount_bannerOverClearedFields) as B.
  fold p in B. unfold step in S.
  destruct (render (state p)) as [|m|f] eqn:R; try discriminate.
  destruct (submitDisabled f) eqn:D; [discriminate|].
  apply render_form in R. destruct R as (_ & _ & R). rewrite R in D.
  apply orb_false_iff in D; destruct D as [D T2].
  apply orb_false_iff in D; destruct D as [L T1].
  apply negb_false_iff in T1.
  assert (Su : success (state p) = []).
  { destruct (success (state p)) as [|c b] eqn:Su; [reflexivity|].
    unfold bannerOverClearedFields in B. rewrite Su in B.
    rewrite B in T1; [discriminate | discriminate]. }
  destruct (Handler (state p)) as (msg & Tm & E); [tauto|].
  rewrite E in S. inversion S; subst p'. exists msg; split; [exact Tm|].
  f_equal. destruct (state p) as [pw er su lo tv sp sc]; cbn in *.
  subst; reflexivity.
Qed.

End ResetPasswordPageLocalChecks.

Lemma handleResetPassword_rejects_locally_witness :
  (exists msg,
      truthy msg = true
      /\ ResetPasswordPage.handleResetPassword_submit None (Some (js "tok"))
           (ResetPasswordPage.mkState
              (ResetPasswordPage.mkPasswords (js "Abcdefg1") [])
              (Some []) (js "done") false (Some true) false false)
         = (ResetPasswordPage.mkState
              (ResetPasswordPage.mkPasswords (js "Abcdefg1") [])
              (Some msg) [] false (Some true) false false, None))
  /\ (exists msg,
        truthy msg = true
        /\ ResetPasswordPage.step None (Some (js "tok"))
             (ResetPasswordPage.run None (Some (js "tok"))
                (ResetPasswordPage.mount (Some (js "tok")))
                [ResetPasswordPage.Change ResetPasswordPage.FieldPassword
                   (js "Abcdefg1");
                 ResetPasswordPage.Change ResetPasswordPage.FieldConfirmPassword
                   (js "Abcdefg2")])
             ResetPasswordPage.Submit
           = Some (ResetPasswordPage.mkPage
                     (ResetPasswordPage.mkState
                        (ResetPasswordPage.mkPasswords (js "Abcdefg1") (js "Abcdefg2"))
                        (Some msg) [] false (Some true) false false)
                     [] [])).
Proof.
  split.
  - apply (proj1 (handleResetPassword_rejects_locally None (Some (js "tok")))).
    right; left; reflexivity.
  - destruct (proj2 (handleResetPassword_rejects_locally None (Some (js "tok")))
                [ResetPasswordPage.Change ResetPasswordPage.FieldPassword
                   (js "Abcdefg1");
                 ResetPasswordPage.Change ResetPasswordPage.FieldConfirmPassword
                   (js "Abcdefg2")]
                (ResetPasswordPage.mkPage
                   (ResetPasswordPage.mkState
                      (ResetPasswordPage.mkPasswords (js "Abcdefg1") (js "Abcdefg2"))
                      (Some ResetPasswordPage.msgMismatch) [] false (Some true)
                      false false)
                   [] [])
                eq_refl)
      as (msg & T & E).
    + left; vm_compute; discriminate.
    + exists msg; split; [exact T|].
      vm_compute in E. vm_compute. inversion E. reflexivity.
Defined.

(** C4, the counterexample. Right after a successful reset both fields
    are empty and the success banner is on screen. The handler, called in
    that state, stops at the empty fields and posts nothing, but the page
    is not otherwise unchanged: the success banner is gone. *)
Lemma handleResetPassword_empties_banner :
  let s0 := fst (ResetPasswordPage.handleResetPassword_settle
                   (ResetPasswordPage.Fulfilled
                      (Some (ResetPasswordPage.mkData true None None)))
                   (ResetPasswordPage.mkState
                      (ResetPasswordPage.mkPasswords (js "Abcdefg1") (js "Abcdefg1"))
                      (Some []) [] true (Some true) false false)) in
  let r := ResetPasswordPage.handleResetPassword_submit None (Some (js "tok")) s0 in
  ResetPasswordPage.password (ResetPasswordPage.passwords s0) = []
  /\ ResetPasswordPage.success s0 = ResetPasswordPage.msgResetDone
  /\ snd r = None
  /\ ResetPasswordPage.error (fst r) = Some ResetPasswordPage.msgFillAll
  /\ ResetPasswordPage.success (fst r) = []
  /\ ResetPasswordPage.success (fst r) <> ResetPasswordPage.success s0.
Proof.
  cbv zeta.
  split; [reflexivity|]. split; [reflexivity|]. split; [reflexivity|].
  split; [reflexivity|]. split; [reflexivity|].
  vm_compute; discriminate.
Qed.

(** * Further properties of the two components *)

(** ** Password rules *)

Section PasswordRules.

Import ResetPasswordPage.

Lemma existsb_Permutation (f : N -> bool) (p q : jsstring) :
  Permutation p q -> existsb f p = existsb f q.
Proof.
  induction 1 as [|x l l' _ IH|x y l|l l' l'' _ IH1 _ IH2]; cbn.
  - reflexivity.
  - now rewrite IH.
  - destruct (f x), (f y); reflexivity.
  - congruence.
Qed.

Lemma validatePassword_None_iff (p : jsstring) :
  validatePassword p = None
  <-> (8 <= jslength p)%N
      /\ existsb isLowerAZ p = true
      /\ existsb isUpperAZ p = true
      /\ existsb isDigit p = true.
Proof.
  unfold validatePassword. rewrite !testLookahead_existsb.
  destruct (N.ltb_spec (jslength p) 8) as [L|L].
  - split; [discriminate | intros [H _]; lia].
  - destruct (existsb isLowerAZ p); cbn [negb];
      [|split; [discriminate | intros (_ & H & _); discriminate]].
    destruct (existsb isUpperAZ p); cbn [negb];
      [|split; [discriminate | intros (_ & _ & H & _); discriminate]].
    destruct (existsb isDigit p); cbn [negb];
      [|split; [discriminate | intros (_ & _ & _ & H); discriminate]].
    split; auto.
Qed.

(** The verdict of [validatePassword] does not depend on the order of the
    code units of the password: the three patterns, whose [.] stops at
    line terminators, still find a letter or digit wherever it stands. *)
Theorem validatePassword_Permutation (p q : jsstring) :
  Permutation p q -> validatePassword p = validatePassword q.
Proof.
  intros H. unfold validatePassword, jslength.
  rewrite !testLookahead_existsb.
  rewrite (Permutation_length H).
  now rewrite !(existsb_Permutation _ _ _ H).
Qed.

(** A password that passes keeps passing when code units of any kind are
    put before or after it: no rule forbids a character and none caps the
    length. *)
Theorem validatePassword_extend (p before after : jsstring) :
  validatePassword p = None ->
  validatePassword (before ++ p ++ after) = None.
Proof.
  rewrite !validatePassword_None_iff. intros (L & A & B & C).
  unfold jslength in *. rewrite !length_app, !existsb_app, A, B, C.
  rewrite !orb_true_r; cbn. repeat split; lia.
Qed.

End PasswordRules.

Lemma validatePassword_Permutation_witness :
  ResetPasswordPage.validatePassword (js "1Abcdefg")
  = ResetPasswordPage.validatePassword (js "Abcdefg1").
Proof.
  apply validatePassword_Permutation.
  change (js "Abcdefg1") with (js "Abcdefg" ++ [49%N]).
  change (js "1Abcdefg") with (49%N :: js "Abcdefg").
  apply Permutation_cons_append.
Defined.

Lemma validatePassword_extend_witness :
  ResetPasswordPage.validatePassword (js "  " ++ js "Abcdefg1" ++ js "!?") = None.
Proof. apply validatePassword_extend; reflexivity. Defined.

(** ** The reset form: typing and submitting *)

Section ResetFormHandlers.

Import ResetPasswordPage.

Variable backendUrl : option jsstring.
Variable token : option jsstring.

(** What a posting submit looked at and what it leaves behind. *)
Lemma submit_posts_inv (s : State) (r : Request) :
  snd (handleResetPassword_submit backendUrl token s) = Some r ->
  password (passwords s) = confirmPassword (passwords s)
  /\ validatePassword (password (passwords s)) = None
  /\ r = mkRequest (resetUrl backendUrl token) (password (passwords s))
  /\ fst (handleResetPassword_submit backendUrl token s)
     = mkState (passwords s) (Some []) [] true (tokenValid s)
               (showPassword s) (showConfirmPassword s).
Proof.
  destruct (handleResetPassword_submit_cases backendUrl token s)
    as [(msg & _ & E & C)|(E & N & Q & V)]; rewrite E; cbn [fst snd].
  - discriminate.
  - intros H; inversion H; auto.
Qed.

(** [handleResetPassword] posts exactly when the two fields are equal and
    the password passes [validatePassword] (which makes both non-empty):
    whenever they are, it posts that password to the reset endpoint of
    the token, and it posts in no other case and nothing else. When it
    posts it leaves the page with both messages empty and the loading
    flag on. *)
Theorem handleResetPassword_posts_iff (s : State) (r : Request) :
  (snd (handleResetPassword_submit backendUrl token s) = Some r
   <-> password (passwords s) = confirmPassword (passwords s)
       /\ validatePassword (password (passwords s)) = None
       /\ r = mkRequest (resetUrl backendUrl token) (password (passwords s)))
  /\ (snd (handleResetPassword_submit backendUrl token s) = Some r ->
      fst (handleResetPassword_submit backendUrl token s)
      = mkState (passwords s) (Some []) [] true (tokenValid s)
                (showPassword s) (showConfirmPassword s)).
Proof.
  split; [split|].
  - intros H. destruct (submit_posts_inv s r H) as (Q & V & R & _). auto.
  - intros (Q & V & ->).
    destruct (handleResetPassword_submit_cases backendUrl token s)
      as [(msg & _ & _ & C)|(E & _)].
    + destruct C as [C|[C|[C|C]]]; try congruence.
      * rewrite C in V; discriminate.
      * rewrite Q, C in V; discriminate.
    + rewrite E; reflexivity.
  - intros H. now destruct (submit_posts_inv s r H) as (_ & _ & _ & St).
Qed.

(** Typing stores the value as typed in the named field and keeps the
    other; after it neither an error nor a success message is truthy;
    typing in the two fields commutes, and typing twice in one field
    keeps the last value. *)
Theorem handleChange_merges (n m : Field) (v w : jsstring) (s : State) :
  passwords (handleChange n v s)
  = match n with
    | FieldPassword => mkPasswords v (confirmPassword (passwords s))
    | FieldConfirmPassword => mkPasswords (password (passwords s)) v
    end
  /\ truthyOpt (error (handleChange n v s)) = false
  /\ truthy (success (handleChange n v s)) = false
  /\ (n <> m ->
      handleChange n v (handleChange m w s) = handleChange m w (handleChange n v s))
  /\ handleChange n v (handleChange n w s) = handleChange n v s.
Proof.
  destruct s as [[pw cpw] er su lo tv sp sc].
  unfold handleChange; cbn.
  destruct (truthyOpt er) eqn:Er, (truthy su) eqn:Su; cbn;
    rewrite ?Er, ?Su; cbn;
    (split; [destruct n; reflexivity|]);
    (split; [reflexivity || exact Er|]);
    (split; [reflexivity || exact Su|]);
    (split; [intros D; destruct n, m; try congruence; reflexivity
            | destruct n; reflexivity]).
Qed.

(** What one step can be. *)
Lemma step_inv (p p' : Page) (e : Event) :
  step backendUrl token p e = Some p' ->
  (tokenValid (state p) = Some true /\ isLoading (state p) = false
   /\ ((exists n v, e = Change n v
         /\ p' = mkPage (handleChange n v (state p)) (inFlight p) (effects p))
       \/ (e = ToggleShowPassword
           /\ p' = mkPage (setShowPassword (negb (showPassword (state p))) (state p))
                          (inFlight p) (effects p))
       \/ (e = ToggleShowConfirmPassword
           /\ p' = mkPage (setShowConfirmPassword
                             (negb (showConfirmPassword (state p))) (state p))
                          (inFlight p) (effects p))
       \/ (e = Submit
           /\ ((exists r,
                   handleResetPassword_submit backendUrl token (state p)
                   = (mkState (passwords (state p)) (Some []) [] true
                              (tokenValid (state p)) (showPassword (state p))
                              (showConfirmPassword (state p)), Some r)
                   /\ snd (handleResetPassword_submit backendUrl token (state p))
                      = Some r
                   /\ p' = mkPage (fst (handleResetPassword_submit backendUrl token
                                          (state p)))
                                  (inFlight p ++ [r]) (effects p ++ [AxiosPost r]))
               \/ (snd (handleResetPassword_submit backendUrl token (state p)) = None
                   /\ isLoading (fst (handleResetPassword_submit backendUrl token
                                        (state p))) = false
                   /\ passwords (fst (handleResetPassword_submit backendUrl token
                                        (state p))) = passwords (state p)
                   /\ p' = mkPage (fst (handleResetPassword_submit backendUrl token
                                          (state p)))
                                  (inFlight p) (effects p))))))
  \/ (exists o r rest,
        e = Settle o /\ inFlight p = r :: rest
        /\ p' = mkPage (fst (handleResetPassword_settle o (state p))) rest
                       (effects p ++ snd (handleResetPassword_settle o (state p)))).
Proof.
  unfold step. intros S.
  destruct e as [n v| | | |o].
  - destruct (render (state p)) as [|m|f] eqn:R; try discriminate.
    apply render_form in R. destruct R as (TV & I & _).
    rewrite I in S. destruct (isLoading (state p)); [discriminate|].
    inversion S. left. split; [exact TV|]. split; [reflexivity|].
    left. exists n, v. split; reflexivity.
  - destruct (render (state p)) as [|m|f] eqn:R; try discriminate.
    apply render_form in R. destruct R as (TV & _ & D).
    rewrite D in S.
    destruct (isLoading (state p)); [discriminate|]. cbn [orb] in S.
    left; split; [exact TV|]. split; [reflexivity|].
    right; right; right; split; [reflexivity|].
    destruct (negb (truthy (password (passwords (state p))))
              || negb (truthy (confirmPassword (passwords (state p)))));
      [discriminate|].
    destruct (handleResetPassword_submit_cases backendUrl token (state p))
      as [(msg & _ & E & _)|(E & _)]; rewrite E in *; cbn [fst snd];
      inversion S.
    + right. split; [reflexivity|]. split; [reflexivity|].
      split; reflexivity.
    + left.
      exists (mkRequest (resetUrl backendUrl token) (password (passwords (state p)))).
      split; [reflexivity|]. split; reflexivity.
  - destruct (render (state p)) as [|m|f] eqn:R; try discriminate.
    apply render_form in R. destruct R as (TV & I & _).
    rewrite I in S. destruct (isLoading (state p)); [discriminate|].
    inversion S. left. split; [exact TV|]. split; [reflexivity|].
    right; left. split; reflexivity.
  - destruct (render (state p)) as [|m|f] eqn:R; try discriminate.
    apply render_form in R. destruct R as (TV & I & _).
    rewrite I in S. destruct (isLoading (state p)); [discriminate|].
    inversion S. left. split; [exact TV|]. split; [reflexivity|].
    right; right; left. split; reflexivity.
  - right.
    assert (G : match inFlight p with
                | [] => None
                | _ :: rest =>
                    let '(s', effs) := handleResetPassword_settle o (state p) in
                    Some (mkPage s' rest (effects p ++ effs))
                end = Some p').
    { destruct (render (state p)); exact S. }
    destruct (inFlight p) as [|r rest]; [discriminate|].
    destruct (handleResetPassword_settle o (state p)) as [s' effs] eqn:E.
    inversion G. exists o, r, rest. split; [reflexivity|].
    split; [reflexivity | rewrite E; reflexivity].
Qed.

(** A page whose token is invalid and that has nothing in flight is
    inert: no event changes its state or issues an effect. *)
Theorem invalid_page_inert (p : Page) (es : list Event) :
  tokenValid (state p) = Some false -> inFlight p = [] ->
  run backendUrl token p es = p.
Proof.
  intros TV F. induction es as [|e es IH]; cbn [run]; [reflexivity|].
  destruct (step backendUrl token p e) as [p'|] eqn:S; [|exact IH].
  apply step_inv in S. destruct S as [(TV' & _)|(o & r & rest & _ & F' & _)];
    congruence.
Qed.

Lemma step_pendingMatchesForm (p p' : Page) (e : Event) :
  step backendUrl token p e = Some p' ->
  inFlightGuarded p -> pendingMatchesForm p -> pendingMatchesForm p'.
Proof.
  intros S [Len _] [Flag Pw]. unfold pendingMatchesForm.
  apply step_inv in S.
  destruct S as [(TV & L & [(n & v & -> & ->)|[(-> & ->)|[(-> & ->)|(-> & S)]]])
                |(o & r & rest & -> & F & ->)]; cbn [state inFlight].
  - assert (E : inFlight p = []).
    { destruct (inFlight p) as [|x l]; [reflexivity|].
      assert (isLoading (state p) = true) by (apply Flag; discriminate).
      congruence. }
    rewrite E, (proj2 (handleChange_keeps n v (state p))), L.
    split; [split; [discriminate | congruence] | intros r []].
  - assert (E : inFlight p = []).
    { destruct (inFlight p) as [|x l]; [reflexivity|].
      assert (isLoading (state p) = true) by (apply Flag; discriminate).
      congruence. }
    rewrite E; cbn. rewrite L.
    split; [split; [discriminate | congruence] | intros r []].
  - assert (E : inFlight p = []).
    { destruct (inFlight p) as [|x l]; [reflexivity|].
      assert (isLoading (state p) = true) by (apply Flag; discriminate).
      congruence. }
    rewrite E; cbn. rewrite L.
    split; [split; [discriminate | congruence] | intros r []].
  - assert (E : inFlight p = []).
    { destruct (inFlight p) as [|x l]; [reflexivity|].
      assert (isLoading (state p) = true) by (apply Flag; discriminate).
      congruence. }
    destruct S as [(r & Eq & Sn & ->)|(Sn & Lo & Ps & ->)]; cbn [state inFlight];
      rewrite E.
    + pose proof (submit_posts_inv (state p) r Sn)
        as (Q & _ & R & St).
      rewrite St; cbn. split; [split; [discriminate | reflexivity]|].
      intros r' [<-|[]]. rewrite R; cbn. auto.
    + rewrite Lo. split; [split; [discriminate | congruence] | intros r []].
  - assert (rest = []).
    { destruct rest; [reflexivity|]. rewrite F in Len; cbn in Len; lia. }
    subst rest. rewrite settle_isLoading.
    split; [split; [discriminate | congruence] | intros r' []].
Qed.

Lemma run_pendingMatchesForm (es : list Event) (p : Page) :
  inFlightGuarded p -> pendingMatchesForm p ->
  pendingMatchesForm (run backendUrl token p es).
Proof.
  revert p; induction es as [|e es IH]; intros p G M; cbn [run]; [exact M|].
  destruct (step backendUrl token p e) as [p'|] eqn:S; [|auto].
  apply IH.
  - exact (step_inFlightGuarded backendUrl token _ _ _ S G).
  - exact (step_pendingMatchesForm _ _ _ S G M).
Qed.

(** On a mounted page, whatever the events, the loading flag is on
    exactly while a request is in flight (so it cannot stay on once the
    request has settled), and the request in flight carries the password
    that is still in both fields. *)
Theorem loading_flag_tracks_request (es : list Event) :
  let p := run backendUrl token (mount token) es in
  (isLoading (state p) = true <-> inFlight p <> [])
  /\ (forall r, In r (inFlight p) ->
      bodyPassword r = password (passwords (state p))
      /\ bodyPassword r = confirmPassword (passwords (state p))).
Proof.
  apply (run_pendingMatchesForm es (mount token)).
  - apply mount_inFlightGuarded.
  - unfold pendingMatchesForm, mount, useEffect_token.
    destruct (negb (truthyOpt token)); cbn;
      (split; [split; [discriminate | congruence] | intros r []]).
Qed.

End ResetFormHandlers.

(** ** The reset form: what is posted, and what follows a response *)

Section ResetFormRequests.

Import ResetPasswordPage.

Variable backendUrl : option jsstring.
Variable token : option jsstring.

Lemma settle_posts_nothing (o : Outcome) (s : State) (r : Request) :
  ~ In (AxiosPost r) (snd (handleResetPassword_settle o s)).
Proof.
  unfold handleResetPassword_settle.
  destruct o as [[d|]|status d|]; cbn.
  - destruct (dataSuccess d); cbn; [intros [H|[]]; discriminate | tauto].
  - tauto.
  - destruct ((status =? 400) || (status =? 404))%N; cbn; tauto.
  - tauto.
Qed.

Lemma step_postsAreValid (p p' : Page) (e : Event) :
  step backendUrl token p e = Some p' ->
  postsAreValid backendUrl token p -> postsAreValid backendUrl token p'.
Proof.
  intros S V. unfold postsAreValid in *.
  apply step_inv in S.
  destruct S as [(_ & _ & [(n & v & -> & ->)|[(-> & ->)|[(-> & ->)|(-> & S)]]])
                |(o & r & rest & -> & F & ->)]; cbn [effects]; try exact V.
  - destruct S as [(r & _ & Sn & ->)|(_ & _ & _ & ->)]; cbn [effects];
      [|exact V].
    intros r' H. apply in_app_or in H. destruct H as [H|[H|[]]]; [auto|].
    inversion H; subst r'.
    apply submit_posts_inv in Sn. destruct Sn as (_ & Va & -> & _).
    split; [exact Va | reflexivity].
  - intros r' H. apply in_app_or in H. destruct H as [H|H]; [auto|].
    now apply settle_posts_nothing in H.
Qed.

Lemma run_postsAreValid (es : list Event) (p : Page) :
  postsAreValid backendUrl token p ->
  postsAreValid backendUrl token (run backendUrl token p es).
Proof.
  revert p; induction es as [|e es IH]; intros p V; cbn [run]; [exact V|].
  destruct (step backendUrl token p e) as [p'|] eqn:S; [|auto].
  apply IH. exact (step_postsAreValid _ _ _ S V).
Qed.

(** Whatever the events on a mounted page, every request it has posted
    carries a password that passes [validatePassword], goes to the reset
    endpoint of the route token, and was posted with a token present: a
    page without token posts nothing. *)
Theorem posted_requests_are_valid (es : list Event) (r : Request) :
  In (AxiosPost r) (effects (run backendUrl token (mount token) es)) ->
  validatePassword (bodyPassword r) = None
  /\ url r = resetUrl backendUrl token
  /\ truthyOpt token = true.
Proof.
  intros H.
  assert (V : postsAreValid backendUrl token (run backendUrl token (mount token) es)).
  { apply run_postsAreValid. intros r' []. }
  destruct (V r H) as [Va U]. split; [exact Va|]. split; [exact U|].
  destruct (truthyOpt token) eqn:T; [reflexivity|].
  rewrite (invalid_page_inert backendUrl token (mount token) es) in H.
  - destruct H.
  - unfold mount, useEffect_token; rewrite T; reflexivity.
  - reflexivity.
Qed.

(** After a rejection that is no token rejection (no response at all, or
    a status other than 400 and 404) the fields and the token validity
    are as before the submit, the flag is off, the form on a valid token
    has its button enabled, and submitting again posts the same request
    and leads to the same state as the first submit. *)
Theorem rejected_submit_can_be_retried (s s1 : State) (r : Request) (o : Outcome) :
  handleResetPassword_submit backendUrl token s = (s1, Some r) ->
  o = RejectedWithoutResponse
  \/ (exists status data,
        o = RejectedWithResponse status data /\ status <> 400%N /\ status <> 404%N) ->
  let s2 := fst (handleResetPassword_settle o s1) in
  passwords s2 = passwords s
  /\ tokenValid s2 = tokenValid s
  /\ isLoading s2 = false
  /\ handleResetPassword_submit backendUrl token s2 = (s1, Some r)
  /\ (tokenValid s = Some true ->
      exists f, render s2 = ResetFormView f /\ submitDisabled f = false).
Proof.
  intros S O s2.
  assert (Sn : snd (handleResetPassword_submit backendUrl token s) = Some r)
    by (rewrite S; reflexivity).
  apply submit_posts_inv in Sn. destruct Sn as (Q & V & R & St).
  rewrite S in St; cbn [fst] in St.
  assert (T : truthy (password (passwords s)) = true).
  { destruct (password (passwords s)); [discriminate V | reflexivity]. }
  assert (E : exists er,
             s2 = mkState (passwords s) er [] false (tokenValid s)
                          (showPassword s) (showConfirmPassword s)).
  { subst s2 s1. destruct O as [->|(status & data & -> & N1 & N2)].
    - eexists; reflexivity.
    - unfold handleResetPassword_settle.
      apply N.eqb_neq in N1, N2. rewrite N1, N2. eexists; reflexivity. }
  destruct E as [er E]. rewrite E; cbn [passwords tokenValid isLoading].
  split; [reflexivity|]. split; [reflexivity|]. split; [reflexivity|]. split.
  - destruct (handleResetPassword_submit_cases backendUrl token
                (mkState (passwords s) er [] false (tokenValid s)
                         (showPassword s) (showConfirmPassword s)))
      as [(msg & _ & _ & C)|(E' & _)]; cbn in *.
    + destruct C as [C|[C|[C|C]]]; try congruence.
      * rewrite C in T; discriminate.
      * rewrite Q, C in T; discriminate.
    + rewrite E'. subst s1 r. reflexivity.
  - intros TV. unfold render; cbn. rewrite TV. eexists; split; [reflexivity|].
    cbn. rewrite <- Q, T. reflexivity.
Qed.

(** After a successful reset the form on screen cannot be sent again as
    it stands: its button is disabled, a direct call of the handler stops
    at the empty fields and posts nothing, and the next keystroke takes
    the success banner away. *)
Theorem after_success_form_is_spent (s : State) (data : ResponseData) :
  dataSuccess data = true ->
  let s' := fst (handleResetPassword_settle (Fulfilled (Some data)) s) in
  (tokenValid s = Some true ->
   exists f, render s' = ResetFormView f /\ submitDisabled f = true)
  /\ handleResetPassword_submit backendUrl token s'
     = (mkState (mkPasswords [] []) (Some msgFillAll) [] false (tokenValid s)
                (showPassword s) (showConfirmPassword s), None)
  /\ (forall n v, success (handleChange n v s') = []).
Proof.
  intros D s'. subst s'. unfold handleResetPassword_settle. rewrite D.
  cbn [fst]. split; [|split].
  - intros TV. unfold render; cbn. rewrite TV.
    eexists; split; [reflexivity|]. cbn.
    destruct (isLoading s); reflexivity.
  - reflexivity.
  - intros n v.
    assert (T : truthy (if truthyOpt (dataMessage data)
                        then interpolate (dataMessage data) else msgResetDone) = true).
    { destruct (dataMessage data) as [m|]; cbn; [|reflexivity].
      destruct (truthy m) eqn:E; [exact E | reflexivity]. }
    revert T.
    generalize (if truthyOpt (dataMessage data)
                then interpolate (dataMessage data) else msgResetDone).
    intros banner T. unfold handleChange; cbn. rewrite T.
    destruct (truthyOpt (error s)); reflexivity.
Qed.

End ResetFormRequests.

Lemma handleResetPassword_posts_iff_witness :
  snd (ResetPasswordPage.handleResetPassword_submit (Some (js "https://api")) (Some (js "tok"))
         (ResetPasswordPage.mkState
            (ResetPasswordPage.mkPasswords (js "Abcdefg1") (js "Abcdefg1"))
            (Some (js "old error")) [] false (Some true) false false))
  = Some (ResetPasswordPage.mkRequest
            (js "https://api/api/auth/reset-password/tok") (js "Abcdefg1")).
Proof.
  apply (proj1 (handleResetPassword_posts_iff (Some (js "https://api"))
                  (Some (js "tok")) _ _)).
  split; [reflexivity|]. split; reflexivity.
Defined.

Lemma handleChange_merges_witness :
  ResetPasswordPage.handleChange ResetPasswordPage.FieldPassword (js " a ")
    (ResetPasswordPage.handleChange ResetPasswordPage.FieldConfirmPassword (js "b")
       (ResetPasswordPage.mkState (ResetPasswordPage.mkPasswords [] [])
          (Some (js "Passwords do not match")) [] false (Some true) false false))
  = ResetPasswordPage.handleChange ResetPasswordPage.FieldConfirmPassword (js "b")
      (ResetPasswordPage.handleChange ResetPasswordPage.FieldPassword (js " a ")
         (ResetPasswordPage.mkState (ResetPasswordPage.mkPasswords [] [])
            (Some (js "Passwords do not match")) [] false (Some true) false false)).
Proof.
  apply handleChange_merges. discriminate.
Defined.

Lemma invalid_page_inert_witness :
  ResetPasswordPage.run None None (ResetPasswordPage.mount None)
    [ResetPasswordPage.Change ResetPasswordPage.FieldPassword (js "Abcdefg1");
     ResetPasswordPage.Submit;
     ResetPasswordPage.Settle ResetPasswordPage.RejectedWithoutResponse]
  = ResetPasswordPage.mount None.
Proof. apply invalid_page_inert; reflexivity. Defined.

Lemma loading_flag_tracks_request_witness :
  ResetPasswordPage.isLoading
    (ResetPasswordPage.state
       (ResetPasswordPage.run None (Some (js "tok"))
          (ResetPasswordPage.mount (Some (js "tok")))
          [ResetPasswordPage.Change ResetPasswordPage.FieldPassword (js "Abcdefg1");
           ResetPasswordPage.Change ResetPasswordPage.FieldConfirmPassword
             (js "Abcdefg1");
           ResetPasswordPage.Submit]))
  = true.
Proof.
  apply (loading_flag_tracks_request None (Some (js "tok"))).
  discriminate.
Defined.

Lemma posted_requests_are_valid_witness :
  ResetPasswordPage.validatePassword (js "Abcdefg1") = None
  /\ js "undefined/api/auth/reset-password/tok"
     = ResetPasswordPage.resetUrl None (Some (js "tok"))
  /\ truthyOpt (Some (js "tok")) = true.
Proof.
  apply (posted_requests_are_valid None (Some (js "tok"))
           [ResetPasswordPage.Change ResetPasswordPage.FieldPassword (js "Abcdefg1");
            ResetPasswordPage.Change ResetPasswordPage.FieldConfirmPassword
              (js "Abcdefg1");
            ResetPasswordPage.Submit;
            ResetPasswordPage.Settle (ResetPasswordPage.RejectedWithResponse 500 None)]
           (ResetPasswordPage.mkRequest
              (js "undefined/api/auth/reset-password/tok") (js "Abcdefg1"))).
  left; reflexivity.
Defined.

Lemma rejected_submit_can_be_retried_witness :
  let s := ResetPasswordPage.mkState
             (ResetPasswordPage.mkPasswords (js "Abcdefg1") (js "Abcdefg1"))
             (Some []) [] false (Some true) false false in
  let s1 := fst (ResetPasswordPage.handleResetPassword_submit None (Some (js "tok")) s) in
  let s2 := fst (ResetPasswordPage.handleResetPassword_settle
                   (ResetPasswordPage.RejectedWithResponse 500
                      (Some (ResetPasswordPage.mkData false
                               (Some (js "Server error")) None))) s1) in
  ResetPasswordPage.error s2 = Some (js "Server error")
  /\ ResetPasswordPage.handleResetPassword_submit None (Some (js "tok")) s2
     = (s1, Some (ResetPasswordPage.mkRequest
                    (js "undefined/api/auth/reset-password/tok") (js "Abcdefg1"))).
Proof.
  intros s s1 s2. split; [reflexivity|].
  apply (rejected_submit_can_be_retried None (Some (js "tok")) s s1
           (ResetPasswordPage.mkRequest
              (js "undefined/api/auth/reset-password/tok") (js "Abcdefg1"))
           (ResetPasswordPage.RejectedWithResponse 500
              (Some (ResetPasswordPage.mkData false (Some (js "Server error")) None)))).
  - reflexivity.
  - right. exists 500%N, (Some (ResetPasswordPage.mkData false
                                  (Some (js "Server error")) None)).
    split; [reflexivity|]. split; discriminate.
Defined.

Lemma after_success_form_is_spent_witness :
  ResetPasswordPage.success
    (ResetPasswordPage.handleChange ResetPasswordPage.FieldPassword (js "x")
       (fst (ResetPasswordPage.handleResetPassword_settle
               (ResetPasswordPage.Fulfilled
                  (Some (ResetPasswordPage.mkData true (Some (js "Done")) None)))
               (ResetPasswordPage.mkState
                  (ResetPasswordPage.mkPasswords (js "Abcdefg1") (js "Abcdefg1"))
                  (Some []) [] true (Some true) false false))))
  = [].
Proof.
  apply (after_success_form_is_spent None (Some (js "tok"))
           (ResetPasswordPage.mkState
              (ResetPasswordPage.mkPasswords (js "Abcdefg1") (js "Abcdefg1"))
              (Some []) [] true (Some true) false false)
           (ResetPasswordPage.mkData true (Some (js "Done")) None) eq_refl).
Defined.

(** ** The upload dialog: fields, close button and the request *)

Section UploadDialogHandlers.

Import ResumeJDUpload.

Variable fastapiUrl : option jsstring.

(** The form is valid exactly when a file is selected and each of the
    three fields holds at least one code unit that is no white space:
    [trim] leaves a non-empty string exactly then. *)
Theorem isFormValid_hasInk (s : State) :
  isFormValid s = true
  <-> resumeFile s <> None
      /\ hasInk (title (jobDetails s)) = true
      /\ hasInk (company (jobDetails s)) = true
      /\ hasInk (description (jobDetails s)) = true.
Proof.
  unfold isFormValid, hasInk. rewrite !truthy_trim.
  destruct (resumeFile s) as [rf|].
  - rewrite !andb_true_iff. split.
    + intros [[A B] C]; repeat split; auto; discriminate.
    + intros (_ & A & B & C); auto.
  - split; [discriminate | intros [H _]; congruence].
Qed.

(** Editing a job field stores the text as typed and touches nothing but
    the job details; edits of different fields commute and a second edit
    of the same field wins. *)
Theorem handleJobDetailsChange_merges (f g : JobField) (v w : jsstring) (s : State) :
  resumeFile (handleJobDetailsChange f v s) = resumeFile s
  /\ isScanning (handleJobDetailsChange f v s) = isScanning s
  /\ dashboard (handleJobDetailsChange f v s) = dashboard s
  /\ match f with
     | FieldTitle => title
     | FieldCompany => company
     | FieldDescription => description
     end (jobDetails (handleJobDetailsChange f v s)) = v
  /\ (f <> g ->
      handleJobDetailsChange f v (handleJobDetailsChange g w s)
      = handleJobDetailsChange g w (handleJobDetailsChange f v s))
  /\ handleJobDetailsChange f v (handleJobDetailsChange f w s)
     = handleJobDetailsChange f v s.
Proof.
  split; [reflexivity|]. split; [reflexivity|]. split; [reflexivity|].
  split; [destruct f; reflexivity|]. split.
  - intros D. destruct f, g; try congruence; reflexivity.
  - destruct f; reflexivity.
Qed.

Lemma submit_guard_passes (s : State) (r : Request) :
  snd (handleStartScanning_submit fastapiUrl s) = Some r ->
  exists rf,
    resumeFile s = Some rf
    /\ truthy (title (jobDetails s)) = true
    /\ truthy (company (jobDetails s)) = true
    /\ truthy (description (jobDetails s)) = true
    /\ handleStartScanning_submit fastapiUrl s
       = (setResumeAnalysisData None (setIsScanning true s),
          Some (mkRequest (analyseUrl fastapiUrl)
                  [(js "resume_file", FormFile (file rf));
                   (js "job_description", FormText (description (jobDetails s)));
                   (js "job_title", FormText (title (jobDetails s)))]
                  true
                  [(js "Content-Type", js "multipart/form-data")])).
Proof.
  unfold handleStartScanning_submit.
  destruct (resumeFile s) as [rf|]; [|discriminate].
  destruct (truthy (title (jobDetails s))); [|discriminate].
  destruct (truthy (company (jobDetails s))); [|discriminate].
  destruct (truthy (description (jobDetails s))); [|discriminate].
  intros _. exists rf. repeat split.
Qed.

(** The request of [handleStartScanning] has exactly three parts, the
    file, the description and the title, each as it stands in the state
    (nothing is trimmed), and is sent with credentials. The company is
    asked for but never sent: with any other non-empty company the
    request is the same. *)
Theorem analysis_request_payload (s : State) (r : Request) :
  snd (handleStartScanning_submit fastapiUrl s) = Some r ->
  (exists rf,
      resumeFile s = Some rf
      /\ r = mkRequest (analyseUrl fastapiUrl)
               [(js "resume_file", FormFile (file rf));
                (js "job_description", FormText (description (jobDetails s)));
                (js "job_title", FormText (title (jobDetails s)))]
               true
               [(js "Content-Type", js "multipart/form-data")])
  /\ (forall c, c <> [] ->
      snd (handleStartScanning_submit fastapiUrl
             (handleJobDetailsChange FieldCompany c s)) = Some r).
Proof.
  intros H. destruct (submit_guard_passes s r H) as (rf & F & T & C & D & E).
  rewrite E in H; cbn [snd] in H. inversion H as [R]. split.
  - exists rf; split; [exact F | reflexivity].
  - intros c Hc. unfold handleStartScanning_submit, handleJobDetailsChange; cbn.
    rewrite F, T, D. destruct c; [congruence|]. reflexivity.
Qed.

(** Closing resets the dialog to a state that depends on the earlier one
    only through the shared result, which it keeps: closing twice is
    closing once, and after it the button is disabled and a direct call
    of the handler posts nothing. *)
Theorem handleCloseDialogBox_resets (s : State) :
  handleCloseDialogBox s
  = setOpenDialog false (initialState (dashboard s))
  /\ handleCloseDialogBox (handleCloseDialogBox s) = handleCloseDialogBox s
  /\ resumeAnalysisData (dashboard (handleCloseDialogBox s))
     = resumeAnalysisData (dashboard s)
  /\ submitEnabled (handleCloseDialogBox s) = false
  /\ handleStartScanning_submit fastapiUrl (handleCloseDialogBox s)
     = (handleCloseDialogBox s, None).
Proof. repeat split. Qed.

(** Closing the dialog does not cancel a request that is out: when it is
    fulfilled afterwards, its answer is still stored in the shared result
    and the results route is still pushed. *)
Theorem close_does_not_cancel (p : Dialog) (r : Request) (rest : list Request)
    (data : AnalysisData) :
  inFlight p = r :: rest ->
  run fastapiUrl p [ClickClose; Settle (Fulfilled data)]
  = mkDialog (mkState None (mkJobDetails [] [] []) false
                      (mkDashboard false (Some data)))
             rest
             (effects p ++ [RouterPush (js "/dashboard/jd-matcher/resume-analysis")]).
Proof.
  intros F. cbn [run step state inFlight effects handleCloseDialogBox].
  rewrite F. reflexivity.
Qed.

Lemma step_scanningHasRequest (p p' : Dialog) (e : Event) :
  step fastapiUrl p e = Some p' ->
  scanningHasRequest p -> scanningHasRequest p'.
Proof.
  unfold scanningHasRequest, step. intros S H.
  destruct e as [first|first|field value| | |o].
  - inversion S; subst; cbn. intros Sc. apply H. revert Sc.
    unfold handleFileUpload. destruct first as [f|]; [|auto].
    destruct (acceptsType (fileType f)); auto.
  - inversion S; subst; cbn. intros Sc. apply H. revert Sc.
    unfold handleDrop. destruct first as [f|]; [|auto].
    destruct (acceptsType (fileType f)); auto.
  - inversion S; subst; cbn. exact H.
  - destruct (startDisabled (state p)) eqn:D; [discriminate|].
    unfold startDisabled in D. apply orb_false_iff in D; destruct D as [_ D].
    destruct (handleStartScanning_submit fastapiUrl (state p)) as [s' [r|]] eqn:E.
    + inversion S; subst; cbn. intros _. destruct (inFlight p); discriminate.
    + inversion S; subst; cbn.
      assert (s' = state p).
      { unfold handleStartScanning_submit in E.
        destruct (resumeFile (state p)); [|congruence].
        destruct (truthy (title (jobDetails (state p)))
                  && truthy (company (jobDetails (state p)))
                  && truthy (description (jobDetails (state p))));
          [discriminate | congruence]. }
      subst s'. exact H.
  - inversion S; subst; cbn. discriminate.
  - destruct (inFlight p) as [|r rest]; [discriminate|].
    destruct o; inversion S; subst; cbn; discriminate.
Qed.

(** On an opened dialog, whatever the events (closing included), a scan
    shown as running has a request out, so the button cannot stay
    disabled by a stale flag; and as long as the dialog is not closed the
    converse holds too. *)
Theorem scanning_flag_tracks_request (d : Dashboard) (es : list Event) :
  let p := run fastapiUrl (opened d) es in
  (isScanning (state p) = true -> inFlight p <> [])
  /\ (forallb (fun e => negb (isClickClose e)) es = true ->
      inFlight p <> [] -> isScanning (state p) = true).
Proof.
  cbn zeta. split.
  - assert (G : forall es p, scanningHasRequest p ->
                             scanningHasRequest (run fastapiUrl p es)).
    { clear es. induction es as [|e es IH]; intros p H; cbn [run]; [exact H|].
      destruct (step fastapiUrl p e) as [p'|] eqn:S; [|auto].
      apply IH. exact (step_scanningHasRequest _ _ _ S H). }
    apply (G es (opened d)). intros H; discriminate H.
  - intros NC.
    apply (upload_run_inFlightGuarded fastapiUrl es (opened d) NC).
    split; cbn; [lia | congruence].
Qed.

(** From a state whose button is enabled, a click followed by a fulfilled
    request posts once, stores the answer unchanged in the shared result,
    closes the dialog, pushes the results route and turns the flag off;
    the file and the three fields stay as they were. *)
Theorem successful_analysis (s : State) (data : AnalysisData) :
  submitEnabled s = true ->
  exists r,
    snd (handleStartScanning_submit fastapiUrl s) = Some r
    /\ run fastapiUrl (mkDialog s [] []) [ClickStart; Settle (Fulfilled data)]
       = mkDialog (mkState (resumeFile s) (jobDetails s) false
                           (mkDashboard false (Some data)))
                  []
                  [AxiosPost r;
                   RouterPush (js "/dashboard/jd-matcher/resume-analysis")].
Proof.
  intros En. unfold submitEnabled in En. apply negb_true_iff in En.
  pose proof En as D. unfold startDisabled in D.
  apply orb_false_iff in D. destruct D as [V _]. apply negb_false_iff in V.
  apply isFormValid_spec in V. destruct V as (F & T & C & De).
  apply trim_nonempty_nonempty in T, C, De.
  destruct (handleStartScanning_submit fastapiUrl s) as [s' [r|]] eqn:E.
  - exists r. split; [reflexivity|].
    assert (Sn : snd (handleStartScanning_submit fastapiUrl s) = Some r)
      by (rewrite E; reflexivity).
    destruct (submit_guard_passes s r Sn) as (rf & _ & _ & _ & _ & E').
    rewrite E in E'. assert (S' : s' = setResumeAnalysisData None (setIsScanning true s))
      by (inversion E'; reflexivity).
    cbn [run step state]. rewrite En, E. cbn. rewrite S'. reflexivity.
  - exfalso.
    assert (Sn : snd (handleStartScanning_submit fastapiUrl s) = None)
      by (rewrite E; reflexivity).
    apply submit_request_iff in Sn. tauto.
Qed.

End UploadDialogHandlers.

Section UploadDialogSelection.

Import ResumeJDUpload.

(** Of two files offered one after the other the later one is kept if it
    passes the type test, else the earlier offer decides; and choosing a
    file and editing a job field do not interfere. *)
Theorem file_selection_last_accepted (f g : option File) (field : JobField)
    (v : jsstring) (s : State) :
  handleFileUpload g (handleFileUpload f s)
  = match g with
    | Some g' => if acceptsType (fileType g')
                 then handleFileUpload g s
                 else handleFileUpload f s
    | None => handleFileUpload f s
    end
  /\ handleFileUpload f (handleJobDetailsChange field v s)
     = handleJobDetailsChange field v (handleFileUpload f s).
Proof.
  unfold handleFileUpload. split.
  - destruct g as [g'|]; [|reflexivity].
    destruct (acceptsType (fileType g')); [|reflexivity].
    destruct f as [f'|]; [|reflexivity].
    destruct (acceptsType (fileType f')); reflexivity.
  - destruct f as [f'|]; [|reflexivity].
    destruct (acceptsType (fileType f')); reflexivity.
Qed.

End UploadDialogSelection.

Lemma isFormValid_hasInk_witness :
  ResumeJDUpload.isFormValid ResumeJDUpload.filledState = true.
Proof.
  apply isFormValid_hasInk.
  split; [discriminate|]. split; [reflexivity|]. split; reflexivity.
Defined.

Lemma handleJobDetailsChange_merges_witness :
  ResumeJDUpload.handleJobDetailsChange ResumeJDUpload.FieldTitle (js " Engineer ")
    (ResumeJDUpload.handleJobDetailsChange ResumeJDUpload.FieldCompany (js "Acme")
       (ResumeJDUpload.initialState ResumeJDUpload.openDashboard))
  = ResumeJDUpload.handleJobDetailsChange ResumeJDUpload.FieldCompany (js "Acme")
      (ResumeJDUpload.handleJobDetailsChange ResumeJDUpload.FieldTitle (js " Engineer ")
         (ResumeJDUpload.initialState ResumeJDUpload.openDashboard)).
Proof.
  apply handleJobDetailsChange_merges. discriminate.
Defined.

Lemma analysis_request_payload_witness :
  snd (ResumeJDUpload.handleStartScanning_submit None
         (ResumeJDUpload.handleJobDetailsChange ResumeJDUpload.FieldCompany
            (js "Initech") ResumeJDUpload.filledState))
  = Some (ResumeJDUpload.mkRequest (js "undefined/api/v1/resume/analyse")
            [(js "resume_file", ResumeJDUpload.FormFile ResumeJDUpload.pdfFile);
             (js "job_description", ResumeJDUpload.FormText (js "Build things"));
             (js "job_title", ResumeJDUpload.FormText (js "Engineer"))]
            true
            [(js "Content-Type", js "multipart/form-data")]).
Proof.
  apply (analysis_request_payload None ResumeJDUpload.filledState).
  - reflexivity.
  - discriminate.
Defined.

Lemma close_does_not_cancel_witness :
  ResumeJDUpload.resumeAnalysisData
    (ResumeJDUpload.dashboard
       (ResumeJDUpload.state
          (ResumeJDUpload.run None
             (ResumeJDUpload.run None
                (ResumeJDUpload.mkDialog ResumeJDUpload.filledState [] [])
                [ResumeJDUpload.ClickStart])
             [ResumeJDUpload.ClickClose;
              ResumeJDUpload.Settle (ResumeJDUpload.Fulfilled (js "{score:1}"))])))
  = Some (js "{score:1}").
Proof.
  rewrite (close_does_not_cancel None
             (ResumeJDUpload.run None
                (ResumeJDUpload.mkDialog ResumeJDUpload.filledState [] [])
                [ResumeJDUpload.ClickStart])
             (ResumeJDUpload.mkRequest (js "undefined/api/v1/resume/analyse")
                [(js "resume_file", ResumeJDUpload.FormFile ResumeJDUpload.pdfFile);
                 (js "job_description", ResumeJDUpload.FormText (js "Build things"));
                 (js "job_title", ResumeJDUpload.FormText (js "Engineer"))]
                true
                [(js "Content-Type", js "multipart/form-data")])
             [] (js "{score:1}") eq_refl).
  reflexivity.
Defined.

Lemma scanning_flag_tracks_request_witness :
  ResumeJDUpload.inFlight
    (ResumeJDUpload.run None (ResumeJDUpload.opened ResumeJDUpload.openDashboard)
       [ResumeJDUpload.FileUpload (Some ResumeJDUpload.pdfFile);
        ResumeJDUpload.JobDetailsChange ResumeJDUpload.FieldTitle (js "Engineer");
        ResumeJDUpload.JobDetailsChange ResumeJDUpload.FieldCompany (js "Acme");
        ResumeJDUpload.JobDetailsChange ResumeJDUpload.FieldDescription
          (js "Build things");
        ResumeJDUpload.ClickStart])
  <> [].
Proof.
  apply (scanning_flag_tracks_request None ResumeJDUpload.openDashboard).
  reflexivity.
Defined.

Lemma successful_analysis_witness :
  exists r,
    snd (ResumeJDUpload.handleStartScanning_submit None ResumeJDUpload.filledState)
    = Some r
    /\ ResumeJDUpload.run None
         (ResumeJDUpload.mkDialog ResumeJDUpload.filledState [] [])
         [ResumeJDUpload.ClickStart;
          ResumeJDUpload.Settle (ResumeJDUpload.Fulfilled (js "{score:1}"))]
       = ResumeJDUpload.mkDialog
           (ResumeJDUpload.mkState
              (ResumeJDUpload.resumeFile ResumeJDUpload.filledState)
              (ResumeJDUpload.jobDetails ResumeJDUpload.filledState)
              false
              (ResumeJDUpload.mkDashboard false (Some (js "{score:1}"))))
           []
           [ResumeJDUpload.AxiosPost r;
            ResumeJDUpload.RouterPush (js "/dashboard/jd-matcher/resume-analysis")].
Proof.
  apply (successful_analysis None ResumeJDUpload.filledState (js "{score:1}")).
  reflexivity.
Defined.
